(** * process_lung_datasets.py: a shallow embedding and its properties

    The script is a batch pipeline of five stages (dataset locator, citation
    resolver, PMID resolver, annotation runner, dataset downloader).  Each
    stage talks to the outside world (census store, HTTP, subprocesses,
    local files) and is guarded by a file-existence check.

    The embedding keeps the control flow of every function of the source and
    makes its effects explicit:
    - the local file system is a finite map from paths to file contents;
    - every logging call, HTTP request, subprocess, census access and sleep
      is appended to a chronological trace;
    - a Python exception is an outcome of its own, which aborts the rest of
      the function, as in the source;
    - what the outside world answers is read from an environment record,
      over which every theorem is universally quantified.

    Modelling choices:
    - the GET of a citation URL answers or raises, as the world decides;
      the requests to the fixed endpoints (search, fetch, dataset
      metadata, assets) always get an answer, a status code and a decoded
      body: connection failures are not modelled there;
    - a streamed body comes in the pieces the library yields, whatever
      their lengths;
    - HTML and XML parsing is the library's: a page is given by what
      [select], [find_all("script")] and [find("ArticleTitle")] return on it;
    - the workers of a pool run one after the other, in the order of the
      items;
    - directories are taken to exist, so opening a file for writing succeeds;
    - the annotation tool is taken to start; of what it does, only whether
      it leaves its output file is kept;
    - titles handed to the PMID resolver are strings.

    Left out: [print] calls (stdout is observed by nothing in the script),
    the unused function [abc], and the main block, which only chains the
    stages. *)

From Stdlib Require Import ZArith List String Ascii Bool Lia.
From Stdlib Require Strings.Byte.
From stdpp Require Import base option list gmap strings pretty.
Import ListNotations.

Local Open Scope string_scope.
Local Open Scope Z_scope.

(** ** Python values that flow through the pipeline *)

(** [get_title] returns either a bare title, [None], or the tuple
    [(None, None)]; [get_pmid_for_title] returns a string or [None]; the
    API key is a string or [None].  These are all the dynamic values the
    script handles outside its typed tables. *)
Inductive pyval : Type :=
| PyNone
| PyStr (s : string)
| PyTuple2 (a b : pyval).

#[global] Instance pyval_eq_dec : EqDecision pyval.
Proof. solve_decision. Defined.

(** [x is not None] *)
Definition is_not_None (v : pyval) : bool :=
  match v with
  | PyNone => false
  | _ => true
  end.

(** Python truthiness of the values above: [None] and the empty string are
    falsy, a two-element tuple is truthy. *)
Definition py_truthy (v : pyval) : bool :=
  match v with
  | PyNone => false
  | PyStr EmptyString => false
  | PyStr (String _ _) => true
  | PyTuple2 _ _ => true
  end.

(** [list(set(l))]: the elements of [l] without repetition.  Python leaves
    the order of a set unspecified; the model keeps the order of the last
    occurrences, and no property below depends on it. *)
Definition list_set {A} `{EqDecision A} (l : list A) : list A := remove_dups l.

(** ** Regular expressions of the source

    Both patterns have the shape: a literal [pre], one greedy group of any
    characters, a literal [post]; neither literal holds a newline.  [re.search] returns the leftmost match;
    the group is greedy and, without DOTALL, never crosses a newline. *)

Definition newline : ascii := "010"%char.

Fixpoint starts_with (p s : string) : bool :=
  match p, s with
  | EmptyString, _ => true
  | String a p', String b s' => if Ascii.eqb a b then starts_with p' s' else false
  | String _ _, EmptyString => false
  end.

Fixpoint drop_chars (n : nat) (s : string) : string :=
  match n, s with
  | O, _ => s
  | S n', String _ s' => drop_chars n' s'
  | S _, EmptyString => EmptyString
  end.

(** The part of [s] before its first newline: all the group may consume. *)
Fixpoint line_of (s : string) : string :=
  match s with
  | EmptyString => EmptyString
  | String c s' => if Ascii.eqb c newline then EmptyString else String c (line_of s')
  end.

(** The greedy group followed by [post], anchored at the start of [line]:
    the longest prefix of [line] that is followed by [post]. *)
Fixpoint greedy_group (post line : string) : option string :=
  match line with
  | EmptyString => if starts_with post EmptyString then Some EmptyString else None
  | String c rest =>
      match greedy_group post rest with
      | Some g => Some (String c g)
      | None => if starts_with post line then Some EmptyString else None
      end
  end.

(** [re.search] of the pattern in [s], giving [group(1)] of the match. *)
Fixpoint re_search (pre post s : string) : option string :=
  let here :=
    if starts_with pre s
    then greedy_group post (line_of (drop_chars (String.length pre) s))
    else None in
  match here with
  | Some g => Some g
  | None =>
      match s with
      | EmptyString => None
      | String _ s' => re_search pre post s'
      end
  end.

(** [p1] and [p2] of [get_title]. *)
Definition p1_search : string -> option string :=
  re_search "Publication: " " Dataset Version:".
Definition p2_search : string -> option string :=
  re_search "articleName : '" "',".

(** ** Data model *)

(** A row of the census observation table (the columns the script uses). *)
Record Obs := mkObs {
  tissue_general : string;
  is_primary_data : bool;
  obs_dataset_id : string
}.

(** A row of the census dataset catalogue. *)
Record Dataset := mkDataset {
  collection_id : string;
  dataset_id : string;
  citation : string
}.

(** What [BeautifulSoup] makes of a response text: the texts of the
    elements a CSS selector picks, the texts of the script tags in document
    order, and the text of the first ArticleTitle element, if any. *)
Record document := mkDocument {
  select : string -> list string;
  find_all_script : list string;
  find_ArticleTitle : option string
}.

(** [data["esearchresult"]] of a search answer, with [count] as [int] reads it. *)
Record esearchresult := mkESearch {
  count : Z;
  idlist : list string
}.

Record asset := mkAsset {
  filetype : string;
  url : string
}.

(** JSON body of the dataset metadata endpoint. *)
Record dataset_json := mkDatasetJson {
  json_dataset_id : string;
  assets : list asset
}.

(** A [requests] response: its status code and its decoded body. *)
Record Response (A : Type) := mkResponse {
  status_code : Z;
  body : A
}.
Arguments mkResponse {A} _ _.
Arguments status_code {A} _.
Arguments body {A} _.

(** The exceptions of the script.  [RequestException] stands for what
    [requests.get] itself may raise instead of answering, under the name
    of the exception: MissingSchema for a text that is no URL,
    ConnectionError for a host that cannot be reached. *)
Inductive exn : Type :=
| IndexError
| HTTPError (status : Z)
| NameError (name : string)
| BadFile (path : string)
| RequestException (name : string).

Inductive outcome (A : Type) : Type :=
| Return (a : A)
| Raise (e : exn).
Arguments Return {A} _.
Arguments Raise {A} _.

(** What [response.iter_content(chunk_size)] yields for a streamed answer:
    the pieces of the body, in order.  How the body is cut is up to the
    library and the transfer; a piece need not hold [chunk_size] bytes. *)
Definition stream : Type := N -> list (list Byte.byte).

(** The outside world, as the script sees it.  The GET of a citation URL
    either answers or raises: the text taken from the citation need not be
    a URL at all. *)
Record Env := mkEnv {
  NCBI_API_KEY : pyval;                                  (* os.environ.get *)
  census_datasets : list Dataset;                        (* census_info/datasets *)
  census_obs : list Obs;                                 (* census_data/homo_sapiens obs *)
  page_response : string -> outcome (Response document); (* GET of a citation URL *)
  curl_stdout : string -> document;                      (* curl -L url *)
  esearch_response : string -> Response esearchresult;   (* esearch.fcgi, by term *)
  efetch_response : string -> Response document;         (* efetch.fcgi, by id *)
  dataset_response : string -> Response dataset_json;    (* GET of a dataset URL *)
  asset_response : string -> Response stream;            (* GET of an asset URL *)
  ontogpt_output : string -> option (list Byte.byte)     (* what ontogpt writes, by PMID *)
}.

(** Contents of a local file. *)
Inductive file : Type :=
| ParquetObs (rows : list Obs)
| ParquetDatasets (rows : list Dataset)
| Pickle (items : list pyval)
| Binary (content : list Byte.byte).

Inductive event : Type :=
| LogWarning (msg : string)
| LogError (msg : string)
| Sleep (seconds : Z)
| CensusOpen
| CensusRead (table : string)
| CensusClose
| HttpGet (url : string) (params : list (string * pyval))
| Subprocess (argv : list string)
| WriteChunk (path : string) (chunk : list Byte.byte).

(** The events that reach the network: census access, HTTP requests, and
    the two subprocesses (curl fetches a page, ontogpt queries PubMed). *)
Definition is_network_call (e : event) : bool :=
  match e with
  | CensusOpen | CensusRead _ | CensusClose => true
  | HttpGet _ _ => true
  | Subprocess _ => true
  | _ => false
  end.

Record world := mkWorld {
  fs : gmap string file;
  trace : list event
}.

Definition network_calls (w : world) : list event :=
  List.filter is_network_call (trace w).

(** ** The effect monad: state, trace and exceptions *)

Definition M (A : Type) : Type := world -> outcome A * world.

#[global] Instance M_ret : MRet M := fun A a w => (Return a, w).

#[global] Instance M_bind : MBind M := fun A B k m w =>
  match m w with
  | (Return a, w') => k a w'
  | (Raise e, w') => (Raise e, w')
  end.

Definition raise {A} (e : exn) : M A := fun w => (Raise e, w).

(** What a call gives that either answers or raises. *)
Definition answer_of {A} (answer : outcome A) : M A := fun w => (answer, w).

Definition emit (e : event) : M unit :=
  fun w => (Return tt, mkWorld (fs w) (trace w ++ [e])).

Definition logging_warning (msg : string) : M unit := emit (LogWarning msg).
Definition logging_error (msg : string) : M unit := emit (LogError msg).
Definition sleep (seconds : Z) : M unit := emit (Sleep seconds).

(** [os.path.exists] *)
Definition os_path_exists (path : string) : M bool :=
  fun w => (Return (bool_decide (is_Some (fs w !! path))), w).

Definition read_file (path : string) : M (option file) :=
  fun w => (Return (fs w !! path), w).

Definition write_file (path : string) (f : file) : M unit :=
  fun w => (Return tt, mkWorld (<[path := f]> (fs w)) (trace w)).

(** [df.write(chunk)] on a file opened in binary mode: the bytes go to the
    end of the file. *)
Definition append_chunk (path : string) (chunk : list Byte.byte) : M unit :=
  fun w =>
    let old := match fs w !! path with
               | Some (Binary content) => content
               | _ => []
               end in
    (Return tt, mkWorld (<[path := Binary (old ++ chunk)]> (fs w))
                        (trace w ++ [WriteChunk path chunk])).

(** [Pool(8).map(f, l)]: one call of the worker per item, results in the
    order of the items; an exception in a worker is raised again by [map].
    The model runs the workers one after the other. *)
Fixpoint pool_map {A B} (f : A -> M B) (l : list A) : M (list B) :=
  match l with
  | [] => mret []
  | x :: rest =>
      y ← f x;
      ys ← pool_map f rest;
      mret (y :: ys)
  end.

(** [for x in l: body(x)] *)
Fixpoint for_each {A} (l : list A) (body : A -> M unit) : M unit :=
  match l with
  | [] => mret tt
  | x :: rest => body x;; for_each rest body
  end.

(** [response.raise_for_status()]: 4xx and 5xx raise. *)
Definition raise_for_status {A} (response : Response A) : M unit :=
  if (400 <=? status_code response) && (status_code response <? 600)
  then raise (HTTPError (status_code response))
  else mret tt.

(** [response.iter_content(chunk_size)] *)
Definition iter_content (response : Response stream) (chunk_size : N)
  : list (list Byte.byte) :=
  body response chunk_size.

(** ** Module constants *)

Definition EUTILS_URL : string := "https://eutils.ncbi.nlm.nih.gov/entrez/eutils/".
Definition EMAIL : string := "raymond.leclair@gmail.com".
Definition NCBI_API_SLEEP : Z := 1.
Definition PUBMED : string := "pubmed".
Definition ONTOGPT_DIR : string := "ontogpt".
Definition CELLXGENE_DOMAIN_NAME : string := "cellxgene.cziscience.com".
Definition CELLXGENE_API_URL_BASE : string := "https://api." +:+ CELLXGENE_DOMAIN_NAME.
Definition CELLXGENE_DIR : string := "cellxgene".

Definition lung_obs_parquet : string := "lung_obs.parquet".
Definition lung_datasets_parquet : string := "lung_datasets.parquet".
Definition titles_pickle : string := "titles.pickle".
Definition pmids_pickle : string := "pmids.pickle".
Definition chunk_size : N := 1024 * 1024.

Definition selectors : list string :=
  [ "h1.c-article-title";
    "h1.article-header__title.smaller";
    "div.core-container h1";
    "h1.content-header__title.content-header__title--xx-long";
    "h1#page-title.highwire-cite-title" ].

(** ** The functions of the script *)

Section Pipeline.

Variable env : Env.

(** [pd.read_parquet] and [pickle.load]; a file that holds something else
    than what the caller stored there makes the read fail. *)
Definition read_parquet_obs (path : string) : M (list Obs) :=
  f ← read_file path;
  match f with
  | Some (ParquetObs rows) => mret rows
  | _ => raise (BadFile path)
  end.

Definition read_parquet_datasets (path : string) : M (list Dataset) :=
  f ← read_file path;
  match f with
  | Some (ParquetDatasets rows) => mret rows
  | _ => raise (BadFile path)
  end.

Definition pickle_load (path : string) : M (list pyval) :=
  f ← read_file path;
  match f with
  | Some (Pickle items) => mret items
  | _ => raise (BadFile path)
  end.

Definition pickle_dump (items : list pyval) (path : string) : M unit :=
  write_file path (Pickle items).

(** The census value filter
    [tissue_general == 'lung' and is_primary_data == True]. *)
Definition value_filter (o : Obs) : bool :=
  String.eqb (tissue_general o) "lung" && Bool.eqb (is_primary_data o) true.

(** [series.isin(values)], row by row. *)
Definition isin (x : string) (values : list string) : bool :=
  bool_decide (x ∈ values).

Definition get_lung_obs_and_datasets : M (list Obs * list Dataset) :=
  obs_exists ← os_path_exists lung_obs_parquet;
  datasets_exists ← os_path_exists lung_datasets_parquet;
  if negb obs_exists || negb datasets_exists then
    emit CensusOpen;;
    emit (CensusRead "census_info/datasets");;
    let datasets := census_datasets env in
    emit (CensusRead "census_data/homo_sapiens/obs");;
    let lung_obs := List.filter value_filter (census_obs env) in
    emit CensusClose;;
    write_file lung_obs_parquet (ParquetObs lung_obs);;
    let lung_datasets :=
      List.filter (fun d => isin (dataset_id d) (map obs_dataset_id lung_obs))
                  datasets in
    write_file lung_datasets_parquet (ParquetDatasets lung_datasets);;
    mret (lung_obs, lung_datasets)
  else
    lung_obs ← read_parquet_obs lung_obs_parquet;
    lung_datasets ← read_parquet_datasets lung_datasets_parquet;
    mret (lung_obs, lung_datasets).

(** The loop over the selectors in [get_title].  It gives the values of
    [title] and [try_wget] after the loop: the first selector that picks
    something sets them and breaks. *)
Fixpoint select_loop (fullsoup : document) (citation_url : string)
    (sels : list string) (title : pyval) (try_wget : bool) : M (pyval * bool) :=
  match sels with
  | [] => mret (title, try_wget)
  | selector :: rest =>
      match select fullsoup selector with
      | [] => select_loop fullsoup citation_url rest title try_wget
      | first :: others =>
          (match others with
           | [] => mret tt
           | _ :: _ =>
               logging_warning
                 ("Selected more than one element using " +:+ selector
                  +:+ " on soup from " +:+ citation_url)
           end);;
          mret (PyStr first, false)
      end
  end.

(** The fallback of [get_title]: curl, then the fifth script tag. *)
Definition try_wget_path (citation_url : string) (title : pyval) : M pyval :=
  emit (Subprocess ["curl"; "-L"; citation_url]);;
  let fullsoup := curl_stdout env citation_url in
  let found := find_all_script fullsoup in
  (* found[4] is there exactly when len(found) > 4 *)
  match nth_error found 4 with
  | Some script =>
      match p2_search script with
      | Some group1 => mret (PyStr group1)
      | None => mret title
      end
  | None => mret title
  end.

Definition get_title (citation : string) : M pyval :=
  let citation_url := PyNone in
  let title := PyNone in
  match p1_search citation with
  | None =>
      logging_warning ("Could not find citation URL for " +:+ citation);;
      mret (PyTuple2 citation_url title)
  | Some citation_url =>
      emit (HttpGet citation_url []);;
      response ← answer_of (page_response env citation_url);
      let try_wget := true in
      '(title, try_wget) ←
        (if status_code response =? 200
         then select_loop (body response) citation_url selectors title try_wget
         else mret (title, try_wget));
      title ← (if (try_wget : bool)
               then try_wget_path citation_url title
               else mret title);
      mret title
  end.

Definition get_titles (lung_datasets : list Dataset) : M (list pyval) :=
  cached ← os_path_exists titles_pickle;
  if negb cached then
    let citations := map citation lung_datasets in
    titles ← pool_map get_title citations;
    let titles := list_set (List.filter is_not_None titles) in
    pickle_dump titles titles_pickle;;
    mret titles
  else
    pickle_load titles_pickle.

Definition get_title_for_pmid (pmid : string) : M pyval :=
  let title := PyNone in
  let fetch_url := EUTILS_URL +:+ "efetch.fcgi" in
  let params :=
    [ ("db", PyStr PUBMED); ("id", PyStr pmid); ("rettype", PyStr "xml");
      ("email", PyStr EMAIL); ("api_key", NCBI_API_KEY env) ] in
  sleep NCBI_API_SLEEP;;
  emit (HttpGet fetch_url params);;
  let response := efetch_response env pmid in
  if status_code response =? 200 then
    match find_ArticleTitle (body response) with
    | Some text => mret (PyStr text)
    | None => mret title
    end
  else
    logging_error ("Encountered error in fetching from PubMed: "
                   +:+ pretty (status_code response));;
    mret title.

(** The loop over [idlist] in [get_pmid_for_title]; it gives [pmid] after
    the loop. *)
Fixpoint idlist_loop (title : string) (ids : list string) (pmid : pyval)
  : M pyval :=
  match ids with
  | [] => mret pmid
  | _pmid :: rest =>
      _title ← get_title_for_pmid _pmid;
      if bool_decide (_title = PyStr (title +:+ "."))
      then mret (PyStr _pmid)
      else idlist_loop title rest pmid
  end.

(** [idlist[0]] *)
Definition idlist_0 (ids : list string) : M pyval :=
  match ids with
  | [] => raise IndexError
  | first :: _ => mret (PyStr first)
  end.

(** [title] is a str, as the name says and as [title + "."] needs. *)
Definition get_pmid_for_title (title : string) : M pyval :=
  let pmid := PyNone in
  let search_url := EUTILS_URL +:+ "esearch.fcgi" in
  let params :=
    [ ("db", PyStr PUBMED); ("term", PyStr title); ("field", PyStr "title");
      ("retmode", PyStr "json"); ("email", PyStr EMAIL);
      ("api_key", NCBI_API_KEY env) ] in
  sleep NCBI_API_SLEEP;;
  emit (HttpGet search_url params);;
  let response := esearch_response env title in
  if status_code response =? 200 then
    let data := body response in
    let resultcount := count data in
    if 1 <? resultcount then
      logging_warning ("PubMed returned more than one result for title: " +:+ title);;
      pmid ← idlist_loop title (idlist data) pmid;
      if negb (py_truthy pmid) then idlist_0 (idlist data) else mret pmid
    else
      idlist_0 (idlist data)
  else if status_code response =? 429 then
    logging_error "Too many requests to NCBI API. Try again later, or use API key.";;
    mret pmid
  else
    logging_error "Encountered error in searching PubMed: {response.status_code}";;
    mret pmid.

Definition get_pmids (titles : list string) : M (list pyval) :=
  cached ← os_path_exists pmids_pickle;
  if negb cached then
    pmids ← pool_map get_pmid_for_title titles;
    let pmids := list_set (List.filter is_not_None pmids) in
    pickle_dump pmids pmids_pickle;;
    mret pmids
  else
    pickle_load pmids_pickle.

Definition output_path_of (pmid : string) : string :=
  ONTOGPT_DIR +:+ "/" +:+ pmid +:+ ".out".

Definition run_ontogpt_pubmed_annotate (pmid : string) : M unit :=
  let output_path := output_path_of pmid in
  cached ← os_path_exists output_path;
  if negb cached then
    emit (Subprocess ["ontogpt"; "pubmed-annotate"; "--template"; "cell_type";
                      pmid; "--limit"; "1"; "--output"; output_path]);;
    (* the tool writes its output file, or fails to *)
    match ontogpt_output env pmid with
    | Some content => write_file output_path (Binary content)
    | None => mret tt
    end
  else
    mret tt.

Definition run_ontogpt (pmids : list string) : M unit :=
  pool_map run_ontogpt_pubmed_annotate pmids;; mret tt.

Definition dataset_url_of (collection_id dataset_id : string) : string :=
  CELLXGENE_API_URL_BASE +:+ "/curation/v1/collections/" +:+ collection_id
  +:+ "/datasets/" +:+ dataset_id.

Definition download_filename_of (dataset_id filetype : string) : string :=
  CELLXGENE_DIR +:+ "/" +:+ dataset_id +:+ "." +:+ filetype.

(** The body of the loop over the assets in [get_dataset]. *)
Definition get_asset (dataset_id : string) (asset : asset) : M unit :=
  if negb (String.eqb (filetype asset) "H5AD") then
    mret tt
  else
    let download_filename := download_filename_of dataset_id (filetype asset) in
    present ← os_path_exists download_filename;
    if negb present then
      emit (HttpGet (url asset) []);;
      let response := asset_response env (url asset) in
      raise_for_status response;;
      write_file download_filename (Binary []);;
      for_each (iter_content response chunk_size)
               (append_chunk download_filename)
    else
      mret tt.

Definition get_dataset (dataset_series : Dataset) : M unit :=
  let collection_id := collection_id dataset_series in
  let dataset_id := dataset_id dataset_series in
  let dataset_url := dataset_url_of collection_id dataset_id in
  emit (HttpGet dataset_url []);;
  let response := dataset_response env dataset_url in
  raise_for_status response;;
  if negb (status_code response =? 200) then
    logging_error ("Could not get dataset for id " +:+ dataset_id)
  else
    let data := body response in
    if negb (String.eqb dataset_id (json_dataset_id data)) then
      logging_error ("Response dataset id: " +:+ json_dataset_id data
                     +:+ " does not equal specified dataset id: " +:+ dataset_id)
    else
      for_each (assets data) (get_asset dataset_id).

(** [get_datasets] reads the module-level name [lung_datasets], which is
    bound only when the script runs as a program: [lung_datasets_global] is
    its value, or [None] while the name is unbound. *)
Definition get_datasets {A : Type} (lung_datasets_global : option (list Dataset))
    (datasets_df : A) : M unit :=
  match lung_datasets_global with
  | None => raise (NameError "lung_datasets")
  | Some lung_datasets =>
      let datasets_series := lung_datasets in
      pool_map get_dataset datasets_series;; mret tt
  end.

End Pipeline.

(** ** Observing a run *)

(** The events a run from [w] to [w'] has added to the trace. *)
Definition new_events (w w' : world) : list event :=
  drop (length (trace w)) (trace w').

(** No selector of the list picks an element of the page. *)
Definition no_selector_matched (page : document) : Prop :=
  Forall (fun selector => select page selector = []) selectors.

(** Filter correctness of the locator: every dataset kept has its
    identifier among those of the observation rows. *)
Definition filter_correct (lung_obs : list Obs) (lung_datasets : list Dataset) : Prop :=
  forall d, In d lung_datasets -> In (dataset_id d) (map obs_dataset_id lung_obs).

(** The two parquet files, when both are there, are a pair of tables the
    locator may have written. *)
Definition cache_consistent (files : gmap string file) : Prop :=
  forall f1 f2,
    files !! lung_obs_parquet = Some f1 ->
    files !! lung_datasets_parquet = Some f2 ->
    exists lung_obs lung_datasets,
      f1 = ParquetObs lung_obs /\ f2 = ParquetDatasets lung_datasets
      /\ filter_correct lung_obs lung_datasets.

(** What [get_title_for_pmid] returns for a PMID: the text of the
    ArticleTitle element of a 200 answer, None otherwise. *)
Definition fetched_title (env : Env) (pmid : string) : pyval :=
  let response := efetch_response env pmid in
  if status_code response =? 200 then
    match find_ArticleTitle (body response) with
    | Some text => PyStr text
    | None => PyNone
    end
  else PyNone.

(** The fetched title of the candidate is the query title with a period. *)
Definition title_matches (env : Env) (title pmid : string) : bool :=
  bool_decide (fetched_title env pmid = PyStr (title +:+ ".")).

(** The PMID a fetch request asks for. *)
Definition efetch_id (e : event) : option string :=
  match e with
  | HttpGet request_url (_ :: (_, PyStr pmid) :: _) =>
      if String.eqb request_url (EUTILS_URL +:+ "efetch.fcgi") then Some pmid else None
  | _ => None
  end.

(** The PMIDs fetched in a run, in the order of the requests. *)
Definition efetch_ids (evs : list event) : list string := omap efetch_id evs.

(** The items of [l] up to and including the first one that passes [p]. *)
Fixpoint up_to_first {A} (p : A -> bool) (l : list A) : list A :=
  match l with
  | [] => []
  | x :: rest => if p x then [x] else x :: up_to_first p rest
  end.

(** The search for [title] answers 200 with an empty idlist. *)
Definition empty_answer (env : Env) (title : string) : Prop :=
  status_code (esearch_response env title) = 200
  /\ idlist (body (esearch_response env title)) = [].

(** [v] is a PMID listed in the idlist of a search that answered 200 for
    one of the titles. *)
Definition listed_pmid (env : Env) (titles : list string) (v : pyval) : Prop :=
  exists pmid title,
    v = PyStr pmid /\ In title titles
    /\ status_code (esearch_response env title) = 200
    /\ In pmid (idlist (body (esearch_response env title))).

(** The command line of the annotation tool for a PMID. *)
Definition ontogpt_argv (pmid : string) : list string :=
  ["ontogpt"; "pubmed-annotate"; "--template"; "cell_type"; pmid;
   "--limit"; "1"; "--output"; output_path_of pmid].

(** ** Sample worlds, used to run the functions on concrete inputs *)

Definition no_document : document := mkDocument (fun _ => []) [] None.

(** A world in which nothing answers: every request gets a 404. *)
Definition env_offline : Env :=
  {| NCBI_API_KEY := PyNone;
     census_datasets := [];
     census_obs := [];
     page_response := fun _ => Return (mkResponse 404 no_document);
     curl_stdout := fun _ => no_document;
     esearch_response := fun _ => mkResponse 404 (mkESearch 0 []);
     efetch_response := fun _ => mkResponse 404 no_document;
     dataset_response := fun _ => mkResponse 404 (mkDatasetJson EmptyString []);
     asset_response := fun _ => mkResponse 404 (fun _ => []);
     ontogpt_output := fun _ => None |}.

Definition world0 : world := mkWorld ∅ [].

(** The end-to-end scenario of the specification: a reachable page with
    one element for the first selector. *)
Definition scenario_page : document :=
  mkDocument
    (fun selector => if String.eqb selector "h1.c-article-title" then ["My Study"] else [])
    [] None.

Definition env_scenario : Env :=
  {| NCBI_API_KEY := PyNone;
     census_datasets := [];
     census_obs := [];
     page_response := fun _ => Return (mkResponse 200 scenario_page);
     curl_stdout := fun _ => no_document;
     esearch_response := fun _ => mkResponse 404 (mkESearch 0 []);
     efetch_response := fun _ => mkResponse 404 no_document;
     dataset_response := fun _ => mkResponse 404 (mkDatasetJson EmptyString []);
     asset_response := fun _ => mkResponse 404 (fun _ => []);
     ontogpt_output := fun _ => None |}.

Definition scenario_citation : string :=
  "... Publication: https://example.com/article Dataset Version: 2024-01-01 ...".

(** A page without any of the selected elements, and a curl output whose
    fifth script tag holds the article name. *)
Definition env_fallback : Env :=
  {| NCBI_API_KEY := PyNone;
     census_datasets := [];
     census_obs := [];
     page_response := fun _ => Return (mkResponse 200 no_document);
     curl_stdout := fun _ =>
       mkDocument (fun _ => [])
         ["a"; "b"; "c"; "d"; "var page = { articleName : 'Fallback Title', };"]
         None;
     esearch_response := fun _ => mkResponse 404 (mkESearch 0 []);
     efetch_response := fun _ => mkResponse 404 no_document;
     dataset_response := fun _ => mkResponse 404 (mkDatasetJson EmptyString []);
     asset_response := fun _ => mkResponse 404 (fun _ => []);
     ontogpt_output := fun _ => None |}.

(** A census with two lung cells of one dataset, a heart cell of a second
    dataset and a lung cell that is not primary data of a third. *)
Definition env_census : Env :=
  {| NCBI_API_KEY := PyNone;
     census_datasets :=
       [ mkDataset "c1" "d1" "cit1"; mkDataset "c2" "d2" "cit2";
         mkDataset "c3" "d3" "cit3" ];
     census_obs :=
       [ mkObs "lung" true "d1"; mkObs "heart" true "d2";
         mkObs "lung" false "d3"; mkObs "lung" true "d1" ];
     page_response := fun _ => Return (mkResponse 404 no_document);
     curl_stdout := fun _ => no_document;
     esearch_response := fun _ => mkResponse 404 (mkESearch 0 []);
     efetch_response := fun _ => mkResponse 404 no_document;
     dataset_response := fun _ => mkResponse 404 (mkDatasetJson EmptyString []);
     asset_response := fun _ => mkResponse 404 (fun _ => []);
     ontogpt_output := fun _ => None |}.

(** A dataset whose metadata lists three assets, two of them H5AD. *)
Definition ds1 : Dataset := mkDataset "c1" "d1" "cit1".

Definition env_download : Env :=
  {| NCBI_API_KEY := PyNone;
     census_datasets := [];
     census_obs := [];
     page_response := fun _ => Return (mkResponse 404 no_document);
     curl_stdout := fun _ => no_document;
     esearch_response := fun _ => mkResponse 404 (mkESearch 0 []);
     efetch_response := fun _ => mkResponse 404 no_document;
     dataset_response := fun _ =>
       mkResponse 200
         (mkDatasetJson "d1"
            [ mkAsset "RDS" "https://assets/d1.rds";
              mkAsset "H5AD" "https://assets/d1.h5ad";
              mkAsset "H5AD" "https://assets/d1-copy.h5ad" ]);
     asset_response := fun asset_url =>
       if String.eqb asset_url "https://assets/d1.h5ad"
       then mkResponse 200 (fun _ => [[Byte.x01]; [Byte.x02; Byte.x03]])
       else mkResponse 200 (fun _ => [[Byte.xff]]);
     ontogpt_output := fun _ => None |}.

(** The metadata endpoint answers with the record of another dataset. *)
Definition env_mismatch : Env :=
  {| NCBI_API_KEY := PyNone;
     census_datasets := [];
     census_obs := [];
     page_response := fun _ => Return (mkResponse 404 no_document);
     curl_stdout := fun _ => no_document;
     esearch_response := fun _ => mkResponse 404 (mkESearch 0 []);
     efetch_response := fun _ => mkResponse 404 no_document;
     dataset_response := fun _ =>
       mkResponse 200 (mkDatasetJson "d2" [mkAsset "H5AD" "https://assets/d2.h5ad"]);
     asset_response := fun _ => mkResponse 200 (fun _ => [[Byte.x01]]);
     ontogpt_output := fun _ => None |}.

(** Every cache artifact of the pipeline is on disk. *)
Definition world_cached : world :=
  mkWorld
    (<[lung_obs_parquet := ParquetObs [mkObs "lung" true "d1"]]>
     (<[lung_datasets_parquet := ParquetDatasets [ds1]]>
      (<[titles_pickle := Pickle [PyStr "My Study"]]>
       (<[pmids_pickle := Pickle [PyStr "38540357"]]>
        (<["ontogpt/38540357.out" := Binary []]>
         (<["cellxgene/d1.H5AD" := Binary [Byte.x01; Byte.x02; Byte.x03]]> ∅))))))
    [].

(** The search finds nothing: count 0 and an empty idlist. *)
Definition env_no_result : Env :=
  {| NCBI_API_KEY := PyNone;
     census_datasets := [];
     census_obs := [];
     page_response := fun _ => Return (mkResponse 404 no_document);
     curl_stdout := fun _ => no_document;
     esearch_response := fun _ => mkResponse 200 (mkESearch 0 []);
     efetch_response := fun _ => mkResponse 404 no_document;
     dataset_response := fun _ => mkResponse 404 (mkDatasetJson EmptyString []);
     asset_response := fun _ => mkResponse 404 (fun _ => []);
     ontogpt_output := fun _ => None |}.

(** The search finds three articles; the second one carries the query
    title with a period. *)
Definition env_three_results : Env :=
  {| NCBI_API_KEY := PyNone;
     census_datasets := [];
     census_obs := [];
     page_response := fun _ => Return (mkResponse 404 no_document);
     curl_stdout := fun _ => no_document;
     esearch_response := fun _ => mkResponse 200 (mkESearch 3 ["111"; "222"; "333"]);
     efetch_response := fun pmid =>
       if String.eqb pmid "222"
       then mkResponse 200 (mkDocument (fun _ => []) [] (Some "Foo bar."))
       else mkResponse 200 (mkDocument (fun _ => []) [] (Some "Foo bar"));
     dataset_response := fun _ => mkResponse 404 (mkDatasetJson EmptyString []);
     asset_response := fun _ => mkResponse 404 (fun _ => []);
     ontogpt_output := fun _ => None |}.

(** The search finds one article, whatever the title. *)
Definition env_one_result : Env :=
  {| NCBI_API_KEY := PyStr "key";
     census_datasets := [];
     census_obs := [];
     page_response := fun _ => Return (mkResponse 404 no_document);
     curl_stdout := fun _ => no_document;
     esearch_response := fun _ => mkResponse 200 (mkESearch 1 ["38540357"]);
     efetch_response := fun _ => mkResponse 404 no_document;
     dataset_response := fun _ => mkResponse 404 (mkDatasetJson EmptyString []);
     asset_response := fun _ => mkResponse 404 (fun _ => []);
     ontogpt_output := fun pmid => Some [Byte.x7b; Byte.x7d] |}.

(** The metadata are fine, but the asset server refuses the H5AD file. *)
Definition env_asset_error : Env :=
  {| NCBI_API_KEY := PyNone;
     census_datasets := [];
     census_obs := [];
     page_response := fun _ => Return (mkResponse 404 no_document);
     curl_stdout := fun _ => no_document;
     esearch_response := fun _ => mkResponse 404 (mkESearch 0 []);
     efetch_response := fun _ => mkResponse 404 no_document;
     dataset_response := fun _ =>
       mkResponse 200
         (mkDatasetJson "d1"
            [ mkAsset "RDS" "https://assets/d1.rds";
              mkAsset "H5AD" "https://assets/d1.h5ad";
              mkAsset "H5AD" "https://assets/d1-copy.h5ad" ]);
     asset_response := fun _ => mkResponse 403 (fun _ => []);
     ontogpt_output := fun _ => None |}.

(** The search finds two articles, and every fetch is refused with 429. *)
Definition env_refused : Env :=
  {| NCBI_API_KEY := PyNone;
     census_datasets := [];
     census_obs := [];
     page_response := fun _ => Return (mkResponse 404 no_document);
     curl_stdout := fun _ => no_document;
     esearch_response := fun _ => mkResponse 200 (mkESearch 2 ["111"; "222"]);
     efetch_response := fun _ =>
       mkResponse 429 (mkDocument (fun _ => []) [] (Some "Foo bar."));
     dataset_response := fun _ => mkResponse 404 (mkDatasetJson EmptyString []);
     asset_response := fun _ => mkResponse 404 (fun _ => []);
     ontogpt_output := fun _ => None |}.

(** A world in which a text without scheme is refused by [requests.get]
    before anything is sent, and every URL is answered by the page of the
    scenario. *)
Definition env_no_url : Env :=
  {| NCBI_API_KEY := PyNone;
     census_datasets := [];
     census_obs := [];
     page_response := fun citation_url =>
       if starts_with "http" citation_url
       then Return (mkResponse 200 scenario_page)
       else Raise (RequestException "MissingSchema");
     curl_stdout := fun _ => no_document;
     esearch_response := fun _ => mkResponse 404 (mkESearch 0 []);
     efetch_response := fun _ => mkResponse 404 no_document;
     dataset_response := fun _ => mkResponse 404 (mkDatasetJson EmptyString []);
     asset_response := fun _ => mkResponse 404 (fun _ => []);
     ontogpt_output := fun _ => None |}.

Example get_title_scenario :
  get_title env_scenario scenario_citation world0
  = (Return (PyStr "My Study"),
     mkWorld ∅ [HttpGet "https://example.com/article" []]).
Proof. reflexivity. Qed.

(** ** The regular expressions on concrete strings *)

Example p1_search_scenario :
  p1_search "... Publication: https://example.com/article Dataset Version: 2024-01-01 ..."
  = Some "https://example.com/article".
Proof. reflexivity. Qed.

Example p1_search_greedy :
  p1_search "Publication: a Dataset Version: b Dataset Version: c"
  = Some "a Dataset Version: b".
Proof. reflexivity. Qed.

Example p1_search_no_match :
  p1_search "Publication: https://example.com/article" = None.
Proof. reflexivity. Qed.

Example p2_search_script :
  p2_search "var x = { articleName : 'My Study', other : 1 }" = Some "My Study".
Proof. reflexivity. Qed.

(** What [re_search] finds is framed by the two literals in the string. *)

Lemma append_assoc (a b c : string) : (a +:+ b) +:+ c = a +:+ (b +:+ c).
Proof.
  induction a as [|x a IH]; [reflexivity|].
  change (String x ((a +:+ b) +:+ c) = String x (a +:+ b +:+ c)).
  now rewrite IH.
Qed.

Lemma starts_with_split (p s : string) :
  starts_with p s = true -> s = p +:+ drop_chars (String.length p) s.
Proof.
  revert s. induction p as [|a p IH]; intros s H; [reflexivity|].
  destruct s as [|b s]; [discriminate|]. cbn [starts_with] in H.
  destruct (Ascii.eqb_spec a b) as [->|]; [|discriminate].
  change (String b s
          = String b (p +:+ drop_chars (String.length p) s)).
  f_equal. now apply IH.
Qed.

Lemma line_of_split (s : string) : exists rest, s = line_of s +:+ rest.
Proof.
  induction s as [|c s [rest IH]]; [now exists EmptyString|].
  cbn [line_of]. destruct (Ascii.eqb c newline).
  - now exists (String c s).
  - exists rest. change (String c s = String c (line_of s +:+ rest)).
    now f_equal.
Qed.

Lemma greedy_group_split (post line g : string) :
  greedy_group post line = Some g -> exists rest, line = g +:+ post +:+ rest.
Proof.
  revert g. induction line as [|c line IH]; intros g; cbn [greedy_group].
  - destruct (starts_with post EmptyString) eqn:Hpost; [|discriminate].
    intros [= <-]. eexists. now apply starts_with_split.
  - destruct (greedy_group post line) as [g'|].
    + intros [= <-]. destruct (IH g' eq_refl) as [rest ->]. now exists rest.
    + destruct (starts_with post (String c line)) eqn:Hpost; [|discriminate].
      intros [= <-]. eexists. now apply starts_with_split.
Qed.

Lemma re_search_sound (pre post s g : string) :
  re_search pre post s = Some g ->
  exists before after, s = before +:+ pre +:+ g +:+ post +:+ after.
Proof.
  assert (Hhere : forall s,
    (if starts_with pre s
     then greedy_group post (line_of (drop_chars (String.length pre) s))
     else None) = Some g ->
    exists after, s = pre +:+ g +:+ post +:+ after).
  { intros s0. destruct (starts_with pre s0) eqn:Hpre; [|discriminate].
    intros Hgroup. apply greedy_group_split in Hgroup as [rest Hline].
    destruct (line_of_split (drop_chars (String.length pre) s0)) as [tail Htail].
    rewrite Hline in Htail. exists (rest +:+ tail).
    rewrite (starts_with_split _ _ Hpre) at 1. rewrite Htail.
    now rewrite !append_assoc. }
  induction s as [|c s IH]; cbn [re_search].
  - destruct (if starts_with pre EmptyString then _ else _) as [g'|] eqn:Hfirst;
      [|discriminate].
    intros [= ->]. destruct (Hhere _ Hfirst) as [after Hs].
    now exists EmptyString, after.
  - destruct (if starts_with pre (String c s) then _ else _) as [g'|] eqn:Hfirst.
    + intros [= ->]. destruct (Hhere _ Hfirst) as [after Hs].
      now exists EmptyString, after.
    + intros Hrest. destruct (IH Hrest) as (before & after & ->).
      now exists (String c before), after.
Qed.

(** ** Stepping through the monad *)

Lemma bind_Return {A B} (m : M A) (k : A -> M B) w a w' :
  m w = (Return a, w') -> (m ≫= k) w = k a w'.
Proof. intros H. unfold mbind, M_bind. now rewrite H. Qed.

Lemma bind_Raise {A B} (m : M A) (k : A -> M B) w e w' :
  m w = (Raise e, w') -> (m ≫= k) w = (Raise e, w').
Proof. intros H. unfold mbind, M_bind. now rewrite H. Qed.

Ltac unfold_monad :=
  unfold mbind, M_bind, mret, M_ret, raise, logging_warning, logging_error,
    sleep, emit, os_path_exists, read_file, write_file, pickle_dump in *.

(** ** Citation resolver *)

(** C9: when the pattern "Publication: ... Dataset Version:" does not
    match the citation, [get_title] logs one warning, returns the pair
    (None, None), and adds nothing else to the trace: no request is made. *)
Theorem get_title_without_url (env : Env) (citation : string) (w : world) :
  p1_search citation = None ->
  get_title env citation w
  = (Return (PyTuple2 PyNone PyNone),
     mkWorld (fs w)
             (trace w ++ [LogWarning ("Could not find citation URL for " +:+ citation)]))
  /\ network_calls (snd (get_title env citation w)) = network_calls w.
Proof.
  intros Hno. unfold get_title. rewrite Hno. unfold_monad. simpl.
  split; [reflexivity|].
  unfold network_calls. simpl. rewrite List.filter_app. simpl.
  now rewrite app_nil_r.
Qed.

Lemma get_title_without_url_witness :
  p1_search "no publication here" = None
  /\ get_title env_scenario "no publication here" world0
     = (Return (PyTuple2 PyNone PyNone),
        mkWorld ∅ [LogWarning "Could not find citation URL for no publication here"]).
Proof.
  split; [reflexivity|].
  apply (get_title_without_url env_scenario "no publication here" world0).
  reflexivity.
Defined.

Lemma new_events_app (w : world) (f : gmap string file) (evs : list event) :
  new_events w (mkWorld f (trace w ++ evs)) = evs.
Proof. unfold new_events. simpl. apply drop_app_length. Qed.

(** The loop over the selectors either finds nothing and changes nothing,
    or stops at a selector that picks something, having logged at most
    warnings. *)
Lemma select_loop_cases (page : document) (citation_url : string)
    (sels : list string) (w : world) :
  (Forall (fun selector => select page selector = []) sels
   /\ select_loop page citation_url sels PyNone true w = (Return (PyNone, true), w))
  \/ (~ Forall (fun selector => select page selector = []) sels
      /\ exists text evs,
           select_loop page citation_url sels PyNone true w
           = (Return (PyStr text, false), mkWorld (fs w) (trace w ++ evs))
           /\ Forall (fun e => exists msg, e = LogWarning msg) evs).
Proof.
  induction sels as [|selector rest IH]; simpl.
  - left. split; [constructor | reflexivity].
  - destruct (select page selector) as [|first others] eqn:Hsel.
    + destruct IH as [[Hall Hrun] | [Hnot Hrun]].
      * left. split; [constructor; assumption | assumption].
      * right. split; [|assumption].
        intros Hall. apply Hnot. now inversion Hall.
    + right. split.
      * intros Hall. inversion Hall as [|? ? Hhd]. congruence.
      * exists first. destruct others as [|second others'].
        -- exists []. unfold_monad. simpl. rewrite app_nil_r.
           destruct w; split; [reflexivity | constructor].
        -- eexists. unfold_monad. simpl. split; [reflexivity|].
           constructor; [eexists; reflexivity | constructor].
Qed.

(** What the fifth script tag of curl's output gives. *)
Lemma try_wget_path_run (env : Env) (citation_url : string) (title : pyval) (w : world) :
  try_wget_path env citation_url title w
  = (Return match nth_error (find_all_script (curl_stdout env citation_url)) 4 with
            | Some script =>
                match p2_search script with
                | Some group1 => PyStr group1
                | None => title
                end
            | None => title
            end,
     mkWorld (fs w) (trace w ++ [Subprocess ["curl"; "-L"; citation_url]])).
Proof.
  unfold try_wget_path.
  destruct (nth_error (find_all_script (curl_stdout env citation_url)) 4)
    as [script|]; [destruct (p2_search script)|];
    unfold_monad; reflexivity.
Qed.


(** The two ways through [get_title] once the citation URL is found and
    the request is answered: the primary path gives the text of a selected
    element, the fallback runs curl. *)
Lemma get_title_with_url (env : Env) (citation citation_url : string) (w : world)
    (response : Response document) :
  p1_search citation = Some citation_url ->
  page_response env citation_url = Return response ->
  ((status_code response <> 200 \/ no_selector_matched (body response))
   /\ get_title env citation w
      = (Return match nth_error (find_all_script (curl_stdout env citation_url)) 4 with
                | Some script =>
                    match p2_search script with
                    | Some group1 => PyStr group1
                    | None => PyNone
                    end
                | None => PyNone
                end,
         mkWorld (fs w)
           (trace w ++ [HttpGet citation_url []; Subprocess ["curl"; "-L"; citation_url]])))
  \/ (~ (status_code response <> 200 \/ no_selector_matched (body response))
      /\ exists text evs,
           get_title env citation w
           = (Return (PyStr text),
              mkWorld (fs w) (trace w ++ HttpGet citation_url [] :: evs))
           /\ Forall (fun e => exists msg, e = LogWarning msg) evs).
Proof.
  intros Hurl Hanswer. unfold get_title. rewrite Hurl, Hanswer.
  rewrite (bind_Return _ _ w tt (mkWorld (fs w) (trace w ++ [HttpGet citation_url []])))
    by reflexivity.
  set (w1 := mkWorld (fs w) (trace w ++ [HttpGet citation_url []])).
  rewrite (bind_Return _ _ w1 response w1) by reflexivity.
  destruct (Z.eqb_spec (status_code response) 200) as [H200 | Hnot200].
  - destruct (select_loop_cases (body response) citation_url selectors w1)
      as [[Hall Hrun] | [Hnot (text & evs & Hrun & Hevs)]].
    + left. split; [right; exact Hall|].
      rewrite (bind_Return _ _ w1 _ _ Hrun).
      rewrite (bind_Return _ _ w1 _ _ (try_wget_path_run env citation_url PyNone w1)).
      unfold mret, M_ret, w1. cbn [fs trace]. now rewrite <- app_assoc.
    + right. split; [intros [Hst | Hall]; [congruence | contradiction]|].
      exists text, evs. split; [|exact Hevs].
      rewrite (bind_Return _ _ w1 _ _ Hrun). unfold_monad. unfold w1.
      cbn [fs trace]. now rewrite <- app_assoc.
  - left. split; [left; exact Hnot200|].
    rewrite (bind_Return _ _ w1 (PyNone, true) w1) by reflexivity.
    rewrite (bind_Return _ _ w1 _ _ (try_wget_path_run env citation_url PyNone w1)).
    unfold mret, M_ret, w1. cbn [fs trace]. now rewrite <- app_assoc.
Qed.

(** C7: once the citation URL is found and fetched, [get_title] runs curl
    exactly when the GET did not answer 200 or no selector picked an
    element; the title it then returns is the group the regex finds in the
    text of the fifth script tag of curl's output, and nothing (None) when
    there are fewer than five script tags or the regex does not match. *)
Theorem get_title_fallback (env : Env) (citation citation_url : string) (w : world)
    (response : Response document) :
  p1_search citation = Some citation_url ->
  page_response env citation_url = Return response ->
  let fallback := status_code response <> 200 \/ no_selector_matched (body response) in
  (In (Subprocess ["curl"; "-L"; citation_url])
      (new_events w (snd (get_title env citation w)))
   <-> fallback)
  /\ (fallback ->
      fst (get_title env citation w)
      = Return
          match nth_error (find_all_script (curl_stdout env citation_url)) 4 with
          | Some script =>
              match p2_search script with
              | Some group1 => PyStr group1
              | None => PyNone
              end
          | None => PyNone
          end).
Proof.
  intros Hurl Hanswer fallback. subst fallback.
  destruct (get_title_with_url env citation citation_url w response Hurl Hanswer)
    as [[Hfb Hrun] | [Hnfb (text & evs & Hrun & Hevs)]];
    rewrite Hrun; cbn [fst snd]; rewrite new_events_app.
  - split; [|reflexivity].
    split; [intros _; exact Hfb | intros _; simpl; auto].
  - split; [|intros Hfb; contradiction].
    split; [|intros Hfb; contradiction].
    simpl. intros [Habs | Hin]; [discriminate|].
    rewrite List.Forall_forall in Hevs. destruct (Hevs _ Hin) as [msg Hmsg].
    discriminate.
Qed.

Lemma get_title_fallback_witness :
  p1_search scenario_citation = Some "https://example.com/article"
  /\ fst (get_title env_fallback scenario_citation world0)
     = Return (PyStr "Fallback Title").
Proof.
  split; [reflexivity|].
  destruct (get_title_fallback env_fallback scenario_citation
              "https://example.com/article" world0
              (mkResponse 200 no_document) eq_refl eq_refl) as [_ Htitle].
  rewrite Htitle; [reflexivity|].
  right. repeat constructor.
Defined.




(** A citation whose publication field is no URL: the pattern matches, and
    the GET raises before any page is fetched. *)
Example get_title_not_a_url :
  p1_search "Publication: N/A Dataset Version: x" = Some "N/A"
  /\ get_title env_no_url "Publication: N/A Dataset Version: x" world0
     = (Raise (RequestException "MissingSchema"), mkWorld ∅ [HttpGet "N/A" []]).
Proof. split; reflexivity. Qed.

(** ** Dataset locator *)

Lemma parquet_paths_differ : lung_obs_parquet <> lung_datasets_parquet.
Proof. discriminate. Qed.

Lemma isin_In (x : string) (values : list string) :
  isin x values = true <-> In x values.
Proof.
  unfold isin. rewrite bool_decide_eq_true. apply list_elem_of_In.
Qed.

(** The table the locator computes passes its own filter. *)
Lemma isin_filter_correct (lung_obs : list Obs) (datasets : list Dataset) :
  filter_correct lung_obs
    (List.filter (fun d => isin (dataset_id d) (map obs_dataset_id lung_obs)) datasets).
Proof.
  intros d Hd. apply List.filter_In in Hd as [_ Hd]. now apply isin_In.
Qed.

Example get_lung_obs_and_datasets_census :
  fst (get_lung_obs_and_datasets env_census world0)
  = Return ([mkObs "lung" true "d1"; mkObs "lung" true "d1"],
            [mkDataset "c1" "d1" "cit1"]).
Proof. reflexivity. Qed.

(** C6: the locator returns tables in which every dataset record has its
    identifier among the dataset identifiers of the lung observation rows.
    The tables are either computed by the filter, or read back from the two
    parquet files; the files are assumed to be a pair the locator wrote,
    and what it leaves on disk is again such a pair. *)
Theorem lung_datasets_in_lung_obs (env : Env) (w : world) :
  cache_consistent (fs w) ->
  exists lung_obs lung_datasets w',
    get_lung_obs_and_datasets env w = (Return (lung_obs, lung_datasets), w')
    /\ (forall d, In d lung_datasets ->
                  In (dataset_id d) (map obs_dataset_id lung_obs))
    /\ cache_consistent (fs w').
Proof.
  intros Hcache. unfold get_lung_obs_and_datasets.
  unfold_monad. cbn [fs trace].
  destruct (fs w !! lung_obs_parquet) as [f1|] eqn:Hobs;
    [destruct (fs w !! lung_datasets_parquet) as [f2|] eqn:Hds|].
  - (* both files are there: read them *)
    destruct (Hcache f1 f2 Hobs Hds) as (lung_obs & lung_datasets & -> & -> & Hok).
    rewrite !bool_decide_eq_true_2 by eauto. cbn.
    unfold read_parquet_obs, read_parquet_datasets. unfold_monad.
    rewrite Hobs, Hds.
    exists lung_obs, lung_datasets, w. repeat split; assumption.
  - (* the dataset table is missing: compute both *)
    rewrite bool_decide_eq_true_2 by eauto.
    rewrite bool_decide_eq_false_2 by (intros [? ?]; discriminate). cbn.
    do 3 eexists. split; [reflexivity|]. split; [apply isin_filter_correct|].
    intros f1' f2'. cbn [fs].
    rewrite lookup_insert_ne by (symmetry; apply parquet_paths_differ).
    rewrite !lookup_insert_eq. intros [= <-] [= <-].
    do 2 eexists. repeat split. apply isin_filter_correct.
  - (* the observation table is missing: compute both *)
    rewrite bool_decide_eq_false_2 by (intros [? ?]; discriminate). cbn.
    do 3 eexists. split; [reflexivity|]. split; [apply isin_filter_correct|].
    intros f1' f2'. cbn [fs].
    rewrite lookup_insert_ne by (symmetry; apply parquet_paths_differ).
    rewrite !lookup_insert_eq. intros [= <-] [= <-].
    do 2 eexists. repeat split. apply isin_filter_correct.
Qed.

Lemma lung_datasets_in_lung_obs_witness :
  cache_consistent (fs world0)
  /\ exists lung_obs lung_datasets w',
       get_lung_obs_and_datasets env_census world0
       = (Return (lung_obs, lung_datasets), w')
       /\ (forall d, In d lung_datasets ->
                     In (dataset_id d) (map obs_dataset_id lung_obs))
       /\ cache_consistent (fs w').
Proof.
  assert (Hempty : cache_consistent (fs world0)).
  { intros f1 f2 Hf1. cbn in Hf1. rewrite lookup_empty in Hf1. discriminate. }
  split; [exact Hempty|].
  apply (lung_datasets_in_lung_obs env_census world0 Hempty).
Defined.

(** ** Dataset downloader *)

Lemma network_calls_app (files : gmap string file) (t evs : list event) :
  network_calls (mkWorld files (t ++ evs))
  = (List.filter is_network_call t ++ List.filter is_network_call evs)%list.
Proof. unfold network_calls. cbn [trace]. apply List.filter_app. Qed.

Lemma h5ad_filename (dataset_id : string) (a : asset) :
  String.eqb (filetype a) "H5AD" = true ->
  download_filename_of dataset_id (filetype a) = download_filename_of dataset_id "H5AD".
Proof. intros H. apply String.eqb_eq in H. now rewrite H. Qed.

(** An asset of another file type is passed over. *)
Lemma get_asset_other (env : Env) (dataset_id : string) (a : asset) (w : world) :
  String.eqb (filetype a) "H5AD" = false ->
  get_asset env dataset_id a w = (Return tt, w).
Proof. intros H. unfold get_asset. now rewrite H. Qed.

(** No asset is fetched once the file is there. *)
Lemma get_asset_present (env : Env) (dataset_id : string) (a : asset) (w : world) :
  is_Some (fs w !! download_filename_of dataset_id "H5AD") ->
  get_asset env dataset_id a w = (Return tt, w).
Proof.
  intros Hfile. unfold get_asset.
  destruct (String.eqb (filetype a) "H5AD") eqn:Htype; [|reflexivity].
  cbn [negb]. rewrite (h5ad_filename _ _ Htype).
  unfold_monad. now rewrite bool_decide_eq_true_2.
Qed.

Lemma for_each_assets_present (env : Env) (dataset_id : string)
    (l : list asset) (w : world) :
  is_Some (fs w !! download_filename_of dataset_id "H5AD") ->
  for_each l (get_asset env dataset_id) w = (Return tt, w).
Proof.
  intros Hfile. induction l as [|a l IH]; [reflexivity|].
  cbn [for_each]. now rewrite (bind_Return _ _ w tt w (get_asset_present _ _ _ _ Hfile)).
Qed.

Lemma for_each_assets_other (env : Env) (dataset_id : string)
    (l : list asset) (w : world) :
  Forall (fun a => String.eqb (filetype a) "H5AD" = false) l ->
  for_each l (get_asset env dataset_id) w = (Return tt, w).
Proof.
  induction 1 as [|a l Ha _ IH]; [reflexivity|].
  cbn [for_each]. now rewrite (bind_Return _ _ w tt w (get_asset_other _ _ _ _ Ha)).
Qed.

Lemma for_each_app {A} (l1 l2 : list A) (body : A -> M unit) (w w1 : world) :
  for_each l1 body w = (Return tt, w1) ->
  for_each (l1 ++ l2) body w = for_each l2 body w1.
Proof.
  revert w. induction l1 as [|x l1 IH]; intros w H.
  - cbn in H. now inversion H.
  - cbn [for_each app] in *. unfold mbind, M_bind in *.
    destruct (body x w) as [[[]|e] wx]; [|discriminate].
    now apply IH.
Qed.

(** Writing the chunks one after the other leaves their concatenation at
    the end of the file, and one trace entry per chunk. *)
Lemma write_chunks (path : string) (chunks : list (list Byte.byte))
    (old : list Byte.byte) (w : world) :
  fs w !! path = Some (Binary old) ->
  for_each chunks (append_chunk path) w
  = (Return tt,
     mkWorld (<[path := Binary (old ++ concat chunks)]> (fs w))
             (trace w ++ map (WriteChunk path) chunks)).
Proof.
  revert old w. induction chunks as [|c chunks IH]; intros old w Hold.
  - cbn. rewrite !app_nil_r. rewrite insert_id by assumption. now destruct w.
  - cbn [for_each concat map].
    rewrite (bind_Return _ _ w tt
               (mkWorld (<[path := Binary (old ++ c)]> (fs w))
                        (trace w ++ [WriteChunk path c]))).
    + rewrite (IH (old ++ c)%list) by (cbn [fs]; apply lookup_insert_eq).
      cbn [fs trace]. rewrite insert_insert_eq.
      now rewrite <- !app_assoc.
    + unfold append_chunk. now rewrite Hold.
Qed.


(** [get_dataset], branch by branch. *)
Lemma get_dataset_run (env : Env) (ds : Dataset) (w : world) :
  let dataset_url := dataset_url_of (collection_id ds) (dataset_id ds) in
  let response := dataset_response env dataset_url in
  get_dataset env ds w
  = if (400 <=? status_code response) && (status_code response <? 600) then
      (Raise (HTTPError (status_code response)),
       mkWorld (fs w) (trace w ++ [HttpGet dataset_url []]))
    else if negb (status_code response =? 200) then
      (Return tt,
       mkWorld (fs w)
         (trace w ++ [HttpGet dataset_url [];
                      LogError ("Could not get dataset for id " +:+ dataset_id ds)]))
    else if negb (String.eqb (dataset_id ds) (json_dataset_id (body response))) then
      (Return tt,
       mkWorld (fs w)
         (trace w ++ [HttpGet dataset_url [];
                      LogError ("Response dataset id: "
                                +:+ json_dataset_id (body response)
                                +:+ " does not equal specified dataset id: "
                                +:+ dataset_id ds)]))
    else
      for_each (assets (body response)) (get_asset env (dataset_id ds))
               (mkWorld (fs w) (trace w ++ [HttpGet dataset_url []])).
Proof.
  intros dataset_url response. unfold get_dataset, raise_for_status.
  fold dataset_url. fold response.
  destruct ((400 <=? status_code response) && (status_code response <? 600));
    [reflexivity|].
  destruct (negb (status_code response =? 200));
    [unfold_monad; cbn [fs trace]; now rewrite <- app_assoc|].
  destruct (negb (String.eqb (dataset_id ds) (json_dataset_id (body response))));
    [unfold_monad; cbn [fs trace]; now rewrite <- app_assoc|].
  reflexivity.
Qed.

(** C5: when the metadata answer carries another dataset id than the one
    asked for, the downloader writes no file; the answer being a 200, it
    logs one error after its request, fetches nothing else and returns. *)
Theorem get_dataset_id_mismatch (env : Env) (ds : Dataset) (w : world) :
  let dataset_url := dataset_url_of (collection_id ds) (dataset_id ds) in
  let response := dataset_response env dataset_url in
  json_dataset_id (body response) <> dataset_id ds ->
  fs (snd (get_dataset env ds w)) = fs w
  /\ (status_code response = 200 ->
      get_dataset env ds w
      = (Return tt,
         mkWorld (fs w)
           (trace w ++ [HttpGet dataset_url [];
                        LogError ("Response dataset id: "
                                  +:+ json_dataset_id (body response)
                                  +:+ " does not equal specified dataset id: "
                                  +:+ dataset_id ds)]))).
Proof.
  intros dataset_url response Hdiff.
  pose proof (get_dataset_run env ds w) as Hrun. cbv zeta in Hrun.
  fold dataset_url in Hrun. fold response in Hrun. rewrite Hrun. clear Hrun.
  assert (Hneq : String.eqb (dataset_id ds) (json_dataset_id (body response)) = false).
  { apply String.eqb_neq. congruence. }
  rewrite Hneq. cbn [negb]. split.
  - destruct ((400 <=? status_code response) && (status_code response <? 600));
      [reflexivity|].
    destruct (negb (status_code response =? 200)); reflexivity.
  - intros ->. reflexivity.
Qed.

Lemma get_dataset_id_mismatch_witness :
  json_dataset_id (body (dataset_response env_mismatch
                           (dataset_url_of (collection_id ds1) (dataset_id ds1))))
  <> dataset_id ds1
  /\ fs (snd (get_dataset env_mismatch ds1 world0)) = fs world0.
Proof.
  assert (Hdiff : json_dataset_id
                    (body (dataset_response env_mismatch
                             (dataset_url_of (collection_id ds1) (dataset_id ds1))))
                  <> dataset_id ds1) by discriminate.
  split; [exact Hdiff|].
  apply (get_dataset_id_mismatch env_mismatch ds1 world0 Hdiff).
Defined.

Example get_dataset_mismatch_run :
  get_dataset env_mismatch ds1 world0
  = (Return tt,
     mkWorld ∅
       [HttpGet "https://api.cellxgene.cziscience.com/curation/v1/collections/c1/datasets/d1" [];
        LogError "Response dataset id: d2 does not equal specified dataset id: d1"]).
Proof. reflexivity. Qed.

Lemma not_h5ad (l : list asset) :
  Forall (fun a => filetype a <> "H5AD") l ->
  Forall (fun a => String.eqb (filetype a) "H5AD" = false) l.
Proof. apply List.Forall_impl. intros a. apply String.eqb_neq. Qed.



(** ** Running a stage again on its cache *)

(** C1 as stated fails for the downloader: with the dataset file on disk
    and an empty trace, [get_dataset] still sends the metadata request. *)
Lemma cached_download_still_requests :
  fs world_cached !! download_filename_of (dataset_id ds1) "H5AD"
  = Some (Binary [Byte.x01; Byte.x02; Byte.x03])
  /\ network_calls world_cached = []
  /\ network_calls (snd (get_dataset env_download ds1 world_cached))
     = [HttpGet "https://api.cellxgene.cziscience.com/curation/v1/collections/c1/datasets/d1" []].
Proof. repeat split; vm_compute; reflexivity. Qed.

(** With the cache files on disk, whatever they hold, the first three
    stages leave the world as it is. *)
Lemma cached_stages_touch_nothing (env : Env) (w : world) :
  (is_Some (fs w !! lung_obs_parquet) ->
   is_Some (fs w !! lung_datasets_parquet) ->
   snd (get_lung_obs_and_datasets env w) = w)
  /\ (forall lung_datasets,
        is_Some (fs w !! titles_pickle) -> snd (get_titles env lung_datasets w) = w)
  /\ (forall titles,
        is_Some (fs w !! pmids_pickle) -> snd (get_pmids env titles w) = w).
Proof.
  repeat apply conj.
  - intros Hobs Hds.
    unfold get_lung_obs_and_datasets, read_parquet_obs, read_parquet_datasets.
    unfold_monad. rewrite !bool_decide_eq_true_2 by assumption. cbn [negb orb].
    destruct Hobs as [f1 Hobs], Hds as [f2 Hds]. rewrite Hobs.
    destruct f1; cbn; try reflexivity. rewrite Hds. destruct f2; reflexivity.
  - intros lung_datasets Hfile. unfold get_titles, pickle_load. unfold_monad.
    rewrite bool_decide_eq_true_2 by assumption. cbn [negb].
    destruct Hfile as [f ->]. destruct f; reflexivity.
  - intros titles Hfile. unfold get_pmids, pickle_load. unfold_monad.
    rewrite bool_decide_eq_true_2 by assumption. cbn [negb].
    destruct Hfile as [f ->]. destruct f; reflexivity.
Qed.

(** C1, amended: with their cache artifact on disk, the locator, the
    citation resolver, the PMID resolver and the annotation runner return
    what the cache holds and leave the world as it is: no request, no
    subprocess, no write.  The downloader, with the dataset file on disk,
    writes nothing and fetches no asset, but still makes one network call,
    the metadata request. *)
Theorem cached_stages (env : Env) (w : world) :
  (forall lung_obs lung_datasets,
     fs w !! lung_obs_parquet = Some (ParquetObs lung_obs) ->
     fs w !! lung_datasets_parquet = Some (ParquetDatasets lung_datasets) ->
     get_lung_obs_and_datasets env w = (Return (lung_obs, lung_datasets), w))
  /\ (forall lung_datasets titles,
        fs w !! titles_pickle = Some (Pickle titles) ->
        get_titles env lung_datasets w = (Return titles, w))
  /\ (forall titles pmids,
        fs w !! pmids_pickle = Some (Pickle pmids) ->
        get_pmids env titles w = (Return pmids, w))
  /\ (forall pmid,
        is_Some (fs w !! output_path_of pmid) ->
        run_ontogpt_pubmed_annotate env pmid w = (Return tt, w))
  /\ (forall ds,
        is_Some (fs w !! download_filename_of (dataset_id ds) "H5AD") ->
        let dataset_url := dataset_url_of (collection_id ds) (dataset_id ds) in
        fs (snd (get_dataset env ds w)) = fs w
        /\ network_calls (snd (get_dataset env ds w))
           = (network_calls w ++ [HttpGet dataset_url []])%list).
Proof.
  repeat apply conj.
  - intros lung_obs lung_datasets Hobs Hds.
    unfold get_lung_obs_and_datasets, read_parquet_obs, read_parquet_datasets.
    unfold_monad.
    rewrite !bool_decide_eq_true_2 by (rewrite ?Hobs, ?Hds; eauto).
    cbn [negb orb]. now rewrite Hobs, Hds.
  - intros lung_datasets titles Hfile.
    unfold get_titles, pickle_load. unfold_monad.
    rewrite bool_decide_eq_true_2 by (rewrite Hfile; eauto).
    cbn [negb]. now rewrite Hfile.
  - intros titles pmids Hfile.
    unfold get_pmids, pickle_load. unfold_monad.
    rewrite bool_decide_eq_true_2 by (rewrite Hfile; eauto).
    cbn [negb]. now rewrite Hfile.
  - intros pmid Hfile.
    unfold run_ontogpt_pubmed_annotate. unfold_monad.
    rewrite bool_decide_eq_true_2 by assumption. reflexivity.
  - intros ds Hfile dataset_url.
    pose proof (get_dataset_run env ds w) as Hrun. cbv zeta in Hrun.
    fold dataset_url in Hrun. rewrite Hrun. clear Hrun.
    set (response := dataset_response env dataset_url).
    destruct ((400 <=? status_code response) && (status_code response <? 600));
      [| destruct (negb (status_code response =? 200));
         [| destruct (negb (String.eqb (dataset_id ds)
                                       (json_dataset_id (body response))));
            [| rewrite for_each_assets_present by exact Hfile ] ] ];
      cbn [fst snd fs]; rewrite network_calls_app; split; reflexivity.
Qed.

Lemma cached_stages_witness :
  get_lung_obs_and_datasets env_download world_cached
  = (Return ([mkObs "lung" true "d1"], [ds1]), world_cached)
  /\ get_titles env_download [ds1] world_cached
     = (Return [PyStr "My Study"], world_cached)
  /\ get_pmids env_download ["My Study"] world_cached
     = (Return [PyStr "38540357"], world_cached)
  /\ run_ontogpt_pubmed_annotate env_download "38540357" world_cached
     = (Return tt, world_cached)
  /\ fs (snd (get_dataset env_download ds1 world_cached)) = fs world_cached.
Proof.
  destruct (cached_stages env_download world_cached)
    as (Hlocator & Htitles & Hpmids & Hontogpt & Hdownload).
  split; [apply Hlocator; reflexivity|].
  split; [apply Htitles; reflexivity|].
  split; [apply Hpmids; reflexivity|].
  split; [apply Hontogpt; vm_compute; eauto|].
  apply Hdownload. vm_compute. eauto.
Defined.

(** ** PMID resolver *)

Lemma get_title_for_pmid_run (env : Env) (pmid : string) (w : world) :
  exists evs,
    get_title_for_pmid env pmid w
    = (Return (fetched_title env pmid), mkWorld (fs w) (trace w ++ evs))
    /\ efetch_ids evs = [pmid].
Proof.
  unfold get_title_for_pmid, fetched_title.
  destruct (status_code (efetch_response env pmid) =? 200).
  - eexists. split.
    + destruct (find_ArticleTitle (body (efetch_response env pmid)));
        unfold_monad; cbn [fs trace]; rewrite <- app_assoc; reflexivity.
    + reflexivity.
  - eexists. split.
    + unfold_monad. cbn [fs trace]. rewrite <- !app_assoc. reflexivity.
    + reflexivity.
Qed.

(** The loop over the candidates stops at the first one whose fetched
    title matches, and has fetched the candidates up to that one. *)
Lemma idlist_loop_run (env : Env) (title : string) (ids : list string) (w : world) :
  exists evs,
    idlist_loop env title ids PyNone w
    = (Return match List.find (title_matches env title) ids with
              | Some pmid => PyStr pmid
              | None => PyNone
              end,
       mkWorld (fs w) (trace w ++ evs))
    /\ efetch_ids evs = up_to_first (title_matches env title) ids.
Proof.
  revert w. induction ids as [|pmid rest IH]; intros w.
  - exists []. cbn. rewrite app_nil_r. now destruct w.
  - destruct (get_title_for_pmid_run env pmid w) as (evs1 & Hfetch & Hids1).
    cbn [idlist_loop List.find up_to_first].
    rewrite (bind_Return _ _ w _ _ Hfetch).
    fold (title_matches env title pmid).
    destruct (title_matches env title pmid).
    + exists evs1. split; [reflexivity | exact Hids1].
    + destruct (IH (mkWorld (fs w) (trace w ++ evs1))) as (evs2 & Hloop & Hids2).
      exists (evs1 ++ evs2)%list. split.
      * rewrite Hloop. cbn [fs trace]. now rewrite app_assoc.
      * unfold efetch_ids in *. rewrite omap_app, Hids1, Hids2. reflexivity.
Qed.

Lemma find_nonempty (p : string -> bool) (ids : list string) (pmid : string) :
  Forall (fun x => x <> EmptyString) ids ->
  List.find p ids = Some pmid ->
  py_truthy (PyStr pmid) = true.
Proof.
  intros Hall Hfind. apply List.find_some in Hfind as [Hin _].
  rewrite List.Forall_forall in Hall. specialize (Hall _ Hin).
  destruct pmid; [congruence | reflexivity].
Qed.

Example get_pmid_for_title_three_results :
  fst (get_pmid_for_title env_three_results "Foo bar" world0) = Return (PyStr "222")
  /\ efetch_ids (trace (snd (get_pmid_for_title env_three_results "Foo bar" world0)))
     = ["111"; "222"].
Proof. split; reflexivity. Qed.

(** The events of [get_pmid_for_title] before it looks at the answer of
    the search. *)
Lemma efetch_ids_search (env : Env) (title : string) (evs : list event) :
  efetch_ids
    ([Sleep NCBI_API_SLEEP;
      HttpGet (EUTILS_URL +:+ "esearch.fcgi")
        [("db", PyStr PUBMED); ("term", PyStr title);
         ("field", PyStr "title"); ("retmode", PyStr "json");
         ("email", PyStr EMAIL); ("api_key", NCBI_API_KEY env)];
      LogWarning ("PubMed returned more than one result for title: " +:+ title)]
     ++ evs)
  = efetch_ids evs.
Proof. reflexivity. Qed.

Lemma get_pmid_for_title_several_run
    (env : Env) (title : string) (w : world) (first : string) (others : list string) :
  let response := esearch_response env title in
  status_code response = 200 ->
  1 < count (body response) ->
  idlist (body response) = first :: others ->
  Forall (fun pmid => pmid <> EmptyString) (idlist (body response)) ->
  exists evs,
    get_pmid_for_title env title w
    = (Return (PyStr match List.find (title_matches env title) (idlist (body response)) with
                     | Some pmid => pmid
                     | None => first
                     end),
       mkWorld (fs w) (trace w ++ evs))
    /\ efetch_ids evs = up_to_first (title_matches env title) (idlist (body response)).
Proof.
  intros response H200 Hcount Hids Hnonempty.
  unfold get_pmid_for_title. fold response.
  rewrite H200. cbn [Z.eqb Pos.eqb].
  replace (1 <? count (body response)) with true by (symmetry; apply Z.ltb_lt; lia).
  unfold sleep, logging_warning.
  set (search := HttpGet (EUTILS_URL +:+ "esearch.fcgi")
                   [("db", PyStr PUBMED); ("term", PyStr title);
                    ("field", PyStr "title"); ("retmode", PyStr "json");
                    ("email", PyStr EMAIL); ("api_key", NCBI_API_KEY env)]).
  set (warning := LogWarning ("PubMed returned more than one result for title: "
                              +:+ title)).
  set (w1 := mkWorld (fs w) (trace w ++ [Sleep NCBI_API_SLEEP; search; warning])).
  destruct (idlist_loop_run env title (idlist (body response)) w1)
    as (evs & Hloop & Hfetched).
  exists ([Sleep NCBI_API_SLEEP; search; warning] ++ evs)%list. split.
  - rewrite (bind_Return _ _ w tt (mkWorld (fs w) (trace w ++ [Sleep NCBI_API_SLEEP])))
      by reflexivity.
    rewrite (bind_Return _ _ _ tt
               (mkWorld (fs w) (trace w ++ [Sleep NCBI_API_SLEEP; search])))
      by (unfold emit; cbn [fs trace]; now rewrite <- app_assoc).
    rewrite (bind_Return _ _ _ tt w1)
      by (unfold emit, w1; cbn [fs trace]; now rewrite <- app_assoc).
    rewrite (bind_Return _ _ w1 _ _ Hloop).
    unfold w1. cbn [fs trace]. rewrite <- app_assoc.
    destruct (List.find (title_matches env title) (idlist (body response)))
      as [pmid|] eqn:Hfind.
    + rewrite (find_nonempty _ _ _ Hnonempty Hfind). reflexivity.
    + cbn [py_truthy negb]. rewrite Hids. reflexivity.
  - subst search warning. rewrite efetch_ids_search. exact Hfetched.
Qed.

(** C4: when the search answers 200 with a count above one, the resolver
    fetches the titles of the candidates in the order of idlist and
    returns the first candidate whose fetched title is the query title
    followed by a period; when no candidate matches it returns the first
    entry of idlist.  The candidates fetched are those up to the selected
    one, and all of them when none matches.  PMIDs are taken to be
    non-empty strings and idlist to hold at least one. *)
Theorem get_pmid_for_title_several_results
    (env : Env) (title : string) (w : world) (first : string) (others : list string) :
  let response := esearch_response env title in
  status_code response = 200 ->
  1 < count (body response) ->
  idlist (body response) = first :: others ->
  Forall (fun pmid => pmid <> EmptyString) (idlist (body response)) ->
  fst (get_pmid_for_title env title w)
  = Return (PyStr match List.find (title_matches env title) (idlist (body response)) with
                  | Some pmid => pmid
                  | None => first
                  end)
  /\ efetch_ids (new_events w (snd (get_pmid_for_title env title w)))
     = up_to_first (title_matches env title) (idlist (body response)).
Proof.
  intros response H200 Hcount Hids Hnonempty.
  destruct (get_pmid_for_title_several_run env title w first others
              H200 Hcount Hids Hnonempty) as (evs & Hrun & Hfetched).
  fold response in Hrun, Hfetched. rewrite Hrun. cbn [fst snd].
  rewrite new_events_app. split; [reflexivity | exact Hfetched].
Qed.

Lemma get_pmid_for_title_several_results_witness :
  fst (get_pmid_for_title env_three_results "Foo bar" world0) = Return (PyStr "222").
Proof.
  destruct (get_pmid_for_title_several_results env_three_results "Foo bar" world0
              "111" ["222"; "333"]) as [Hpmid _].
  - reflexivity.
  - reflexivity.
  - reflexivity.
  - repeat constructor; discriminate.
  - exact Hpmid.
Defined.

(** A search that is refused is not fatal: one error is logged and the
    worker returns None. *)
Lemma get_pmid_for_title_http_error (env : Env) (title : string) (w : world) :
  status_code (esearch_response env title) <> 200 ->
  exists msg,
    get_pmid_for_title env title w
    = (Return PyNone,
       mkWorld (fs w)
         (trace w ++ [Sleep NCBI_API_SLEEP;
                      HttpGet (EUTILS_URL +:+ "esearch.fcgi")
                        [("db", PyStr PUBMED); ("term", PyStr title);
                         ("field", PyStr "title"); ("retmode", PyStr "json");
                         ("email", PyStr EMAIL); ("api_key", NCBI_API_KEY env)];
                      LogError msg])).
Proof.
  intros Hstatus. unfold get_pmid_for_title.
  destruct (Z.eqb_spec (status_code (esearch_response env title)) 200);
    [contradiction|].
  destruct (status_code (esearch_response env title) =? 429);
    eexists; unfold_monad; cbn [fs trace]; rewrite <- !app_assoc; reflexivity.
Qed.

(** A 200 answer with an empty idlist makes the worker raise, whatever the
    count says: both branches end in [idlist[0]]. *)
Lemma get_pmid_for_title_empty_idlist (env : Env) (title : string) (w : world) :
  status_code (esearch_response env title) = 200 ->
  idlist (body (esearch_response env title)) = [] ->
  fst (get_pmid_for_title env title w) = Raise IndexError.
Proof.
  intros H200 Hids. unfold get_pmid_for_title.
  rewrite H200, Hids. cbn [Z.eqb Pos.eqb idlist_loop idlist_0].
  destruct (1 <? count (body (esearch_response env title))); reflexivity.
Qed.

(** What [get_pmids] pickles holds no None. *)
Lemma get_pmids_pickle_without_None
    (env : Env) (titles : list string) (w w' : world) (pmids : list pyval) :
  fs w !! pmids_pickle = None ->
  get_pmids env titles w = (Return pmids, w') ->
  fs w' !! pmids_pickle = Some (Pickle pmids) /\ ~ In PyNone pmids.
Proof.
  intros Habsent. unfold get_pmids. unfold_monad. rewrite Habsent.
  rewrite bool_decide_eq_false_2 by (intros [? ?]; discriminate). cbn [negb].
  destruct (pool_map (get_pmid_for_title env) titles w) as [[found|e] w1];
    [|discriminate].
  intros [= <- <-]. cbn [fs]. split; [apply lookup_insert_eq|].
  unfold list_set. rewrite <- list_elem_of_In, elem_of_remove_dups, list_elem_of_In.
  intros Hin. apply List.filter_In in Hin as [_ Hnone]. discriminate.
Qed.

(** C2, at a search without results: the answer is a 200 with count 0 and
    an empty idlist; the worker raises IndexError instead of returning
    None, the exception leaves [get_pmids], and nothing is pickled. *)
Theorem get_pmid_for_title_no_result :
  get_pmid_for_title env_no_result "An unknown title" world0
  = (Raise IndexError,
     mkWorld ∅
       [Sleep 1;
        HttpGet "https://eutils.ncbi.nlm.nih.gov/entrez/eutils/esearch.fcgi"
          [("db", PyStr "pubmed"); ("term", PyStr "An unknown title");
           ("field", PyStr "title"); ("retmode", PyStr "json");
           ("email", PyStr "raymond.leclair@gmail.com"); ("api_key", PyNone)]])
  /\ fst (get_pmids env_no_result ["An unknown title"] world0) = Raise IndexError
  /\ fs (snd (get_pmids env_no_result ["An unknown title"] world0)) !! pmids_pickle
     = None.
Proof. repeat split. Qed.

(** ** Download stage entry point *)

(** C10: [get_datasets] does not look at its argument.  Whatever is
    passed, of whatever type, the run is the same: the rows of the global
    [lung_datasets] are handed to the pool, and a NameError is raised
    while that name is unbound. *)
Theorem get_datasets_ignores_argument (env : Env)
    (lung_datasets_global : option (list Dataset)) :
  (forall (A B : Type) (datasets_df1 : A) (datasets_df2 : B) (w : world),
     get_datasets env lung_datasets_global datasets_df1 w
     = get_datasets env lung_datasets_global datasets_df2 w)
  /\ (forall (A : Type) (datasets_df : A) (w : world),
        get_datasets env lung_datasets_global datasets_df w
        = match lung_datasets_global with
          | Some lung_datasets =>
              (pool_map (get_dataset env) lung_datasets;; mret tt) w
          | None => (Raise (NameError "lung_datasets"), w)
          end).
Proof.
  split.
  - intros A B datasets_df1 datasets_df2 w. reflexivity.
  - intros A datasets_df w. destruct lung_datasets_global; reflexivity.
Qed.

Example get_datasets_other_argument :
  get_datasets env_download (Some [ds1]) ([] : list Dataset) world0
  = get_datasets env_download (Some [ds1]) [ds1] world0
  /\ fs (snd (get_datasets env_download (Some [ds1]) ([] : list Dataset) world0))
       !! "cellxgene/d1.H5AD"
     = Some (Binary [Byte.x01; Byte.x02; Byte.x03]).
Proof. split; reflexivity. Qed.

(** ** More on the regular expressions *)

Lemma chars_append (a b : string) :
  list_ascii_of_string (a +:+ b)
  = (list_ascii_of_string a ++ list_ascii_of_string b)%list.
Proof.
  induction a as [|x a IH]; [reflexivity|].
  change (x :: list_ascii_of_string (a +:+ b)
          = x :: (list_ascii_of_string a ++ list_ascii_of_string b)%list).
  now rewrite IH.
Qed.

Lemma line_of_no_newline (s : string) :
  ~ In newline (list_ascii_of_string (line_of s)).
Proof.
  induction s as [|c s IH]; cbn [line_of]; [intros []|].
  destruct (Ascii.eqb_spec c newline) as [->|Hc]; [intros []|].
  cbn [list_ascii_of_string]. intros [Heq|Hin]; [congruence | contradiction].
Qed.

Lemma line_of_append (g rest : string) :
  ~ In newline (list_ascii_of_string g) ->
  line_of (g +:+ rest) = g +:+ line_of rest.
Proof.
  induction g as [|c g IH]; intros Hg; [reflexivity|].
  change (line_of (String c (g +:+ rest)) = String c (g +:+ line_of rest)).
  cbn [line_of]. cbn [list_ascii_of_string] in Hg.
  destruct (Ascii.eqb_spec c newline) as [->|Hc].
  - exfalso. apply Hg. now left.
  - f_equal. apply IH. intros Hin. apply Hg. now right.
Qed.

Lemma starts_with_append (p rest : string) : starts_with p (p +:+ rest) = true.
Proof.
  induction p as [|c p IH]; [reflexivity|].
  change (starts_with (String c p) (String c (p +:+ rest)) = true).
  cbn [starts_with]. now rewrite Ascii.eqb_refl.
Qed.

Lemma drop_chars_append (p rest : string) :
  drop_chars (String.length p) (p +:+ rest) = rest.
Proof. induction p as [|c p IH]; [reflexivity | exact IH]. Qed.

Lemma greedy_group_starts (post line : string) :
  starts_with post line = true -> is_Some (greedy_group post line).
Proof.
  intros H. destruct line as [|c line]; cbn [greedy_group].
  - rewrite H. eauto.
  - destruct (greedy_group post line); [eauto|]. rewrite H. eauto.
Qed.

Lemma greedy_group_complete (post g rest : string) :
  is_Some (greedy_group post (g +:+ post +:+ rest)).
Proof.
  induction g as [|c g [g' IH]].
  - change (is_Some (greedy_group post (post +:+ rest))).
    apply greedy_group_starts, starts_with_append.
  - change (is_Some (greedy_group post (String c (g +:+ post +:+ rest)))).
    cbn [greedy_group]. rewrite IH. eauto.
Qed.

Lemma re_search_here (pre post s g : string) :
  (if starts_with pre s
   then greedy_group post (line_of (drop_chars (String.length pre) s))
   else None) = Some g ->
  re_search pre post s = Some g.
Proof. intros H. destruct s; cbn [re_search]; now rewrite H. Qed.

Lemma re_search_later (pre post s : string) (c : ascii) :
  is_Some (re_search pre post s) -> is_Some (re_search pre post (String c s)).
Proof.
  intros H. cbn [re_search].
  destruct (if starts_with pre (String c s) then _ else _); [eauto | exact H].
Qed.

(** A match that exists is found: [re.search] cannot pass over a place
    where the two literals frame a group without newline. *)
Lemma re_search_complete (pre post before g after : string) :
  ~ In newline (list_ascii_of_string g) ->
  ~ In newline (list_ascii_of_string post) ->
  is_Some (re_search pre post (before +:+ pre +:+ g +:+ post +:+ after)).
Proof.
  intros Hg Hpost. induction before as [|c before IH].
  - change (is_Some (re_search pre post (pre +:+ g +:+ post +:+ after))).
    destruct (greedy_group_complete post g (line_of after)) as [g' Hgroup].
    exists g'. apply re_search_here.
    rewrite starts_with_append, drop_chars_append.
    rewrite (line_of_append g) by exact Hg.
    rewrite (line_of_append post) by exact Hpost.
    exact Hgroup.
  - apply (re_search_later pre post _ c). exact IH.
Qed.

(** The group found lies on one line. *)
Lemma re_search_one_line (pre post s g : string) :
  re_search pre post s = Some g -> ~ In newline (list_ascii_of_string g).
Proof.
  assert (Hhere : forall s0,
    (if starts_with pre s0
     then greedy_group post (line_of (drop_chars (String.length pre) s0))
     else None) = Some g ->
    ~ In newline (list_ascii_of_string g)).
  { intros s0. destruct (starts_with pre s0); [|discriminate].
    intros Hgroup Hin. apply greedy_group_split in Hgroup as [rest Hline].
    apply (line_of_no_newline (drop_chars (String.length pre) s0)).
    rewrite Hline, chars_append. apply in_or_app. now left. }
  induction s as [|c s IH]; cbn [re_search].
  - destruct (if starts_with pre EmptyString then _ else _) as [g'|] eqn:Hfirst;
      [|discriminate].
    intros [= ->]. now apply Hhere in Hfirst.
  - destruct (if starts_with pre (String c s) then _ else _) as [g'|] eqn:Hfirst.
    + intros [= ->]. now apply Hhere in Hfirst.
    + exact IH.
Qed.

(** X1: the citation URL that [get_title] extracts stands in the citation
    between "Publication: " and " Dataset Version:", and holds no newline. *)
Theorem p1_search_framed (citation citation_url : string) :
  p1_search citation = Some citation_url ->
  (exists before after,
     citation = before +:+ "Publication: " +:+ citation_url
                +:+ " Dataset Version:" +:+ after)
  /\ ~ In newline (list_ascii_of_string citation_url).
Proof.
  intros H. split.
  - exact (re_search_sound _ _ _ _ H).
  - exact (re_search_one_line _ _ _ _ H).
Qed.

Lemma p1_search_framed_witness :
  p1_search scenario_citation = Some "https://example.com/article"
  /\ ~ In newline (list_ascii_of_string "https://example.com/article").
Proof.
  split; [reflexivity|].
  apply (p1_search_framed scenario_citation "https://example.com/article").
  reflexivity.
Defined.

(** X2: a citation that holds "Publication: ", then a text without
    newline, then " Dataset Version:" always yields a citation URL; such a
    citation never takes the warning path of [get_title]. *)
Theorem p1_search_finds (before text after : string) :
  ~ In newline (list_ascii_of_string text) ->
  is_Some (p1_search (before +:+ "Publication: " +:+ text
                      +:+ " Dataset Version:" +:+ after)).
Proof.
  intros Htext. apply re_search_complete; [exact Htext|].
  cbn. intros H. repeat (destruct H as [H|H]; [discriminate|]). exact H.
Qed.

Lemma p1_search_finds_witness :
  ~ In newline (list_ascii_of_string "doi:1")
  /\ is_Some (p1_search ("x " +:+ "Publication: " +:+ "doi:1"
                         +:+ " Dataset Version:" +:+ " y")).
Proof.
  assert (H : ~ In newline (list_ascii_of_string "doi:1")).
  { cbn. intros H. repeat (destruct H as [H|H]; [discriminate|]). exact H. }
  split; [exact H|].
  apply (p1_search_finds "x " "doi:1" " y" H).
Defined.

(** ** More on the citation resolver *)

Lemma select_loop_skip (page : document) (citation_url : string)
    (before sels : list string) (title : pyval) (try_wget : bool) (w : world) :
  Forall (fun selector => select page selector = []) before ->
  select_loop page citation_url (before ++ sels) title try_wget w
  = select_loop page citation_url sels title try_wget w.
Proof.
  induction 1 as [|selector before Hsel _ IH]; [reflexivity|].
  cbn [app select_loop]. now rewrite Hsel.
Qed.

(** X3: on a 200 answer the title is the text of the first element picked
    by the first selector, in the order of the list, that picks anything;
    later selectors are not consulted, curl is not run, and a warning is
    logged exactly when that selector picks more than one element. *)
Theorem get_title_first_selector (env : Env) (citation citation_url : string)
    (w : world) (response : Response document) (before after : list string)
    (selector first : string) (others : list string) :
  p1_search citation = Some citation_url ->
  page_response env citation_url = Return response ->
  status_code response = 200 ->
  selectors = (before ++ selector :: after)%list ->
  Forall (fun s => select (body response) s = []) before ->
  select (body response) selector = first :: others ->
  get_title env citation w
  = (Return (PyStr first),
     mkWorld (fs w)
       (trace w ++ HttpGet citation_url []
          :: match others with
             | [] => []
             | _ :: _ =>
                 [LogWarning ("Selected more than one element using " +:+ selector
                              +:+ " on soup from " +:+ citation_url)]
             end)).
Proof.
  intros Hurl Hanswer H200 Hsels Hbefore Hsel. unfold get_title.
  rewrite Hurl, Hanswer, Hsels.
  rewrite (bind_Return _ _ w tt (mkWorld (fs w) (trace w ++ [HttpGet citation_url []])))
    by reflexivity.
  set (w1 := mkWorld (fs w) (trace w ++ [HttpGet citation_url []])).
  rewrite (bind_Return _ _ w1 response w1) by reflexivity.
  rewrite H200. cbn [Z.eqb Pos.eqb].
  rewrite (bind_Return _ _ w1 (PyStr first, false)
             (mkWorld (fs w)
                (trace w ++ HttpGet citation_url []
                   :: match others with
                      | [] => []
                      | _ :: _ =>
                          [LogWarning ("Selected more than one element using "
                                       +:+ selector +:+ " on soup from "
                                       +:+ citation_url)]
                      end))).
  - reflexivity.
  - rewrite select_loop_skip by exact Hbefore.
    cbn [select_loop]. rewrite Hsel.
    destruct others; unfold_monad; unfold w1; cbn [fs trace];
      rewrite <- ?app_assoc; reflexivity.
Qed.

Lemma get_title_first_selector_witness :
  get_title env_scenario scenario_citation world0
  = (Return (PyStr "My Study"), mkWorld ∅ [HttpGet "https://example.com/article" []]).
Proof.
  apply (get_title_first_selector env_scenario scenario_citation
           "https://example.com/article" world0 (mkResponse 200 scenario_page)
           [] (tl selectors) "h1.c-article-title" "My Study" []).
  - reflexivity.
  - reflexivity.
  - reflexivity.
  - reflexivity.
  - constructor.
  - reflexivity.
Defined.



Lemma get_titles_cached (env : Env) (lung_datasets : list Dataset) (w : world)
    (items : list pyval) :
  fs w !! titles_pickle = Some (Pickle items) ->
  get_titles env lung_datasets w = (Return items, w).
Proof.
  intros Hfile. unfold get_titles, pickle_load. unfold_monad.
  rewrite bool_decide_eq_true_2 by (rewrite Hfile; eauto).
  cbn [negb]. now rewrite Hfile.
Qed.



Example get_titles_of_ds1 :
  fst (get_titles env_scenario [ds1] world0) = Return [PyTuple2 PyNone PyNone].
Proof. reflexivity. Qed.

(** A citation whose publication field is no URL ends the whole stage:
    the exception leaves the pool and nothing is pickled. *)
Example get_titles_not_a_url :
  get_titles env_no_url
    [mkDataset "c1" "d1" "Publication: https://example.com/a Dataset Version: 1";
     mkDataset "c2" "d2" "Publication: N/A Dataset Version: 1"] world0
  = (Raise (RequestException "MissingSchema"),
     mkWorld ∅ [HttpGet "https://example.com/a" []; HttpGet "N/A" []]).
Proof. reflexivity. Qed.

(** X5: a second run of [get_titles] returns the list of the first run and
    touches nothing, whatever the dataset table and the outside world have
    become: the pickle is never refreshed. *)
Theorem get_titles_rerun (env env' : Env) (lung_datasets lung_datasets' : list Dataset)
    (w w' : world) (titles : list pyval) :
  get_titles env lung_datasets w = (Return titles, w') ->
  get_titles env' lung_datasets' w' = (Return titles, w').
Proof.
  intros Hfirst. apply get_titles_cached.
  destruct (fs w !! titles_pickle) as [f|] eqn:Hfile.
  - unfold get_titles, pickle_load in Hfirst. unfold_monad.
    rewrite bool_decide_eq_true_2 in Hfirst by (rewrite Hfile; eauto).
    cbn [negb] in Hfirst. rewrite Hfile in Hfirst.
    destruct f; try discriminate. now injection Hfirst as <- <-.
  - unfold get_titles in Hfirst. unfold_monad. rewrite Hfile in Hfirst.
    rewrite bool_decide_eq_false_2 in Hfirst by (intros [? ?]; discriminate).
    cbn [negb] in Hfirst.
    destruct (pool_map (get_title env) (map citation lung_datasets) w)
      as [[found|e] w1]; [|discriminate].
    injection Hfirst as <- <-. cbn [fs]. apply lookup_insert_eq.
Qed.

Lemma get_titles_rerun_witness :
  get_titles env_offline [] (snd (get_titles env_scenario [ds1] world0))
  = (Return [PyTuple2 PyNone PyNone], snd (get_titles env_scenario [ds1] world0)).
Proof.
  apply (get_titles_rerun env_scenario env_offline [ds1] [] world0).
  reflexivity.
Defined.

(** ** More on the dataset locator *)

(** What the locator does as soon as one of the two files is missing. *)
Lemma locator_compute (env : Env) (w : world) :
  ~ (is_Some (fs w !! lung_obs_parquet) /\ is_Some (fs w !! lung_datasets_parquet)) ->
  let lung_obs := List.filter value_filter (census_obs env) in
  let lung_datasets :=
    List.filter (fun d => isin (dataset_id d) (map obs_dataset_id lung_obs))
                (census_datasets env) in
  get_lung_obs_and_datasets env w
  = (Return (lung_obs, lung_datasets),
     mkWorld (<[lung_datasets_parquet := ParquetDatasets lung_datasets]>
                (<[lung_obs_parquet := ParquetObs lung_obs]> (fs w)))
             (trace w ++ [CensusOpen; CensusRead "census_info/datasets";
                          CensusRead "census_data/homo_sapiens/obs"; CensusClose])).
Proof.
  intros Hmissing lung_obs lung_datasets.
  unfold get_lung_obs_and_datasets. unfold_monad. cbn [fs trace].
  assert (Hcond : negb (bool_decide (is_Some (fs w !! lung_obs_parquet)))
                  || negb (bool_decide (is_Some (fs w !! lung_datasets_parquet)))
                  = true).
  { destruct (bool_decide_reflect (is_Some (fs w !! lung_obs_parquet)));
      [|reflexivity].
    destruct (bool_decide_reflect (is_Some (fs w !! lung_datasets_parquet)));
      [|reflexivity].
    exfalso. apply Hmissing. now split. }
  rewrite Hcond. rewrite <- !app_assoc. reflexivity.
Qed.

Lemma locator_cached (env : Env) (w : world)
    (lung_obs : list Obs) (lung_datasets : list Dataset) :
  fs w !! lung_obs_parquet = Some (ParquetObs lung_obs) ->
  fs w !! lung_datasets_parquet = Some (ParquetDatasets lung_datasets) ->
  get_lung_obs_and_datasets env w = (Return (lung_obs, lung_datasets), w).
Proof.
  intros Hobs Hds.
  unfold get_lung_obs_and_datasets, read_parquet_obs, read_parquet_datasets.
  unfold_monad.
  rewrite !bool_decide_eq_true_2 by (rewrite ?Hobs, ?Hds; eauto).
  cbn [negb orb]. now rewrite Hobs, Hds.
Qed.

(** X6: as soon as one of the two parquet files is missing the locator
    queries the census (open, the two reads, close) and writes both files
    again.  The observation table holds exactly the census rows of lung
    tissue that are primary data, and the dataset table exactly the
    catalogue rows whose identifier is that of one of these
    observations. *)
Theorem locator_recomputes_both (env : Env) (w : world) :
  ~ (is_Some (fs w !! lung_obs_parquet) /\ is_Some (fs w !! lung_datasets_parquet)) ->
  exists lung_obs lung_datasets,
    get_lung_obs_and_datasets env w
    = (Return (lung_obs, lung_datasets),
       mkWorld (<[lung_datasets_parquet := ParquetDatasets lung_datasets]>
                  (<[lung_obs_parquet := ParquetObs lung_obs]> (fs w)))
               (trace w ++ [CensusOpen; CensusRead "census_info/datasets";
                            CensusRead "census_data/homo_sapiens/obs"; CensusClose]))
    /\ (forall o, In o lung_obs <->
                  In o (census_obs env)
                  /\ tissue_general o = "lung" /\ is_primary_data o = true)
    /\ (forall d, In d lung_datasets <->
                  In d (census_datasets env)
                  /\ exists o, In o lung_obs /\ obs_dataset_id o = dataset_id d).
Proof.
  intros Hmissing. do 2 eexists.
  split; [exact (locator_compute env w Hmissing)|]. split.
  - intros o. rewrite List.filter_In. unfold value_filter.
    rewrite andb_true_iff, String.eqb_eq.
    destruct (is_primary_data o); cbn; intuition congruence.
  - intros d. rewrite List.filter_In, isin_In, List.in_map_iff.
    split; intros [Hd (o & Ho1 & Ho2)]; (split; [exact Hd|]); exists o; auto.
Qed.

Lemma locator_recomputes_both_witness :
  exists lung_obs lung_datasets,
    get_lung_obs_and_datasets env_census world0
    = (Return (lung_obs, lung_datasets),
       mkWorld (<[lung_datasets_parquet := ParquetDatasets lung_datasets]>
                  (<[lung_obs_parquet := ParquetObs lung_obs]> (fs world0)))
               (trace world0 ++ [CensusOpen; CensusRead "census_info/datasets";
                                 CensusRead "census_data/homo_sapiens/obs"; CensusClose]))
    /\ (forall o, In o lung_obs <->
                  In o (census_obs env_census)
                  /\ tissue_general o = "lung" /\ is_primary_data o = true)
    /\ (forall d, In d lung_datasets <->
                  In d (census_datasets env_census)
                  /\ exists o, In o lung_obs /\ obs_dataset_id o = dataset_id d).
Proof.
  apply (locator_recomputes_both env_census world0).
  intros [[f Hf] _]. cbn in Hf. rewrite lookup_empty in Hf. discriminate.
Defined.

(** X7: a second run of the locator returns the tables of the first run
    and touches nothing, even when the census has changed in between: the
    parquet files are never refreshed. *)
Theorem locator_rerun (env env' : Env) (w w' : world)
    (lung_obs : list Obs) (lung_datasets : list Dataset) :
  get_lung_obs_and_datasets env w = (Return (lung_obs, lung_datasets), w') ->
  get_lung_obs_and_datasets env' w' = (Return (lung_obs, lung_datasets), w').
Proof.
  intros Hfirst.
  destruct (decide (is_Some (fs w !! lung_obs_parquet)
                    /\ is_Some (fs w !! lung_datasets_parquet)))
    as [[[f1 Hobs] [f2 Hds]] | Hmissing].
  - unfold get_lung_obs_and_datasets, read_parquet_obs, read_parquet_datasets
      in Hfirst.
    unfold_monad.
    rewrite !bool_decide_eq_true_2 in Hfirst by (rewrite ?Hobs, ?Hds; eauto).
    cbn [negb orb] in Hfirst. rewrite Hobs in Hfirst.
    destruct f1; try discriminate. rewrite Hds in Hfirst.
    destruct f2; try discriminate. injection Hfirst as <- <- <-.
    now apply locator_cached.
  - rewrite (locator_compute env w Hmissing) in Hfirst.
    injection Hfirst as <- <- <-. apply locator_cached; cbn [fs].
    + rewrite lookup_insert_ne by (symmetry; apply parquet_paths_differ).
      apply lookup_insert_eq.
    + apply lookup_insert_eq.
Qed.

Lemma locator_rerun_witness :
  get_lung_obs_and_datasets env_offline
    (snd (get_lung_obs_and_datasets env_census world0))
  = (Return ([mkObs "lung" true "d1"; mkObs "lung" true "d1"],
             [mkDataset "c1" "d1" "cit1"]),
     snd (get_lung_obs_and_datasets env_census world0)).
Proof.
  apply (locator_rerun env_census env_offline world0).
  reflexivity.
Defined.

(** ** More on the PMID resolver *)

(** The three ways [get_pmid_for_title] can end.  It never writes. *)
Lemma get_pmid_for_title_ends (env : Env) (title : string) (w : world) :
  exists out evs,
    get_pmid_for_title env title w = (out, mkWorld (fs w) (trace w ++ evs))
    /\ ((status_code (esearch_response env title) <> 200 /\ out = Return PyNone)
        \/ (empty_answer env title /\ out = Raise IndexError)
        \/ (status_code (esearch_response env title) = 200
            /\ exists pmid,
                 In pmid (idlist (body (esearch_response env title)))
                 /\ out = Return (PyStr pmid))).
Proof.
  set (response := esearch_response env title).
  assert (Hfirst : forall w0 : world,
    (idlist (body response) = [] /\ idlist_0 (idlist (body response)) w0 = (Raise IndexError, w0))
    \/ (exists pmid, In pmid (idlist (body response))
                     /\ idlist_0 (idlist (body response)) w0 = (Return (PyStr pmid), w0))).
  { intros w0. destruct (idlist (body response)) as [|first others].
    - left. now split.
    - right. exists first. split; [now left | reflexivity]. }
  destruct (Z.eqb_spec (status_code response) 200) as [H200 | Hnot200].
  - destruct (1 <? count (body response)) eqn:Hcount.
    + unfold get_pmid_for_title. fold response. rewrite H200, Hcount.
      cbn [Z.eqb Pos.eqb]. unfold sleep, logging_warning.
      set (search := HttpGet (EUTILS_URL +:+ "esearch.fcgi")
                       [("db", PyStr PUBMED); ("term", PyStr title);
                        ("field", PyStr "title"); ("retmode", PyStr "json");
                        ("email", PyStr EMAIL); ("api_key", NCBI_API_KEY env)]).
      set (warning := LogWarning ("PubMed returned more than one result for title: "
                                  +:+ title)).
      set (w1 := mkWorld (fs w) (trace w ++ [Sleep NCBI_API_SLEEP; search; warning])).
      destruct (idlist_loop_run env title (idlist (body response)) w1)
        as (evs & Hloop & _).
      rewrite (bind_Return _ _ w tt (mkWorld (fs w) (trace w ++ [Sleep NCBI_API_SLEEP])))
        by reflexivity.
      rewrite (bind_Return _ _ _ tt
                 (mkWorld (fs w) (trace w ++ [Sleep NCBI_API_SLEEP; search])))
        by (unfold emit; cbn [fs trace]; now rewrite <- app_assoc).
      rewrite (bind_Return _ _ _ tt w1)
        by (unfold emit, w1; cbn [fs trace]; now rewrite <- app_assoc).
      rewrite (bind_Return _ _ w1 _ _ Hloop).
      unfold w1. cbn [fs trace]. rewrite <- app_assoc.
      set (w2 := mkWorld (fs w) (trace w ++ [Sleep NCBI_API_SLEEP; search; warning] ++ evs)).
      destruct (List.find (title_matches env title) (idlist (body response)))
        as [pmid|] eqn:Hfind.
      * apply List.find_some in Hfind as [Hin _].
        destruct (py_truthy (PyStr pmid)); cbn [negb].
        -- do 2 eexists. split; [reflexivity|]. right. right.
           split; [first [exact H200 | reflexivity]|]. now exists pmid.
        -- destruct (Hfirst w2) as [[Hempty _] | (first & Hfirst_in & Hrun)].
           ++ rewrite Hempty in Hin. destruct Hin.
           ++ rewrite Hrun. do 2 eexists. split; [reflexivity|]. right. right.
              split; [first [exact H200 | reflexivity]|]. now exists first.
      * cbn [py_truthy negb].
        destruct (Hfirst w2) as [[Hempty Hrun] | (first & Hfirst_in & Hrun)];
          rewrite Hrun; do 2 eexists; (split; [reflexivity|]); right.
        -- left. split; [now split | reflexivity].
        -- right. split; [first [exact H200 | reflexivity]|]. now exists first.
    + unfold get_pmid_for_title. fold response. rewrite H200, Hcount.
      cbn [Z.eqb Pos.eqb]. unfold sleep.
      rewrite (bind_Return _ _ w tt (mkWorld (fs w) (trace w ++ [Sleep NCBI_API_SLEEP])))
        by reflexivity.
      unfold mbind at 1. unfold M_bind at 1. unfold emit at 1. cbn [fs trace].
      rewrite <- app_assoc.
      match goal with
      | |- context [idlist_0 _ ?w0] =>
          destruct (Hfirst w0) as [[Hempty Hrun] | (first & Hfirst_in & Hrun)]
      end; rewrite Hrun; do 2 eexists; (split; [reflexivity|]); right.
      * left. split; [now split | reflexivity].
      * right. split; [first [exact H200 | reflexivity]|]. now exists first.
  - destruct (get_pmid_for_title_http_error env title w Hnot200) as [msg Hrun].
    do 2 eexists. split; [exact Hrun|]. left. now split.
Qed.

(** X8: for a title that is a string and a search that answers 200, the
    resolver returns a PMID taken from idlist whenever idlist is not empty,
    whatever the count says and whether or not a candidate title
    matched, and raises IndexError when idlist is empty, again whatever
    the count says.  In no case does it write a file. *)
Theorem get_pmid_for_title_outcomes (env : Env) (title : string) (w : world) :
  let response := esearch_response env title in
  let out := fst (get_pmid_for_title env title w) in
  (status_code response = 200 -> idlist (body response) <> [] ->
   exists pmid, In pmid (idlist (body response)) /\ out = Return (PyStr pmid))
  /\ (status_code response = 200 -> idlist (body response) = [] ->
      out = Raise IndexError)
  /\ fs (snd (get_pmid_for_title env title w)) = fs w.
Proof.
  intros response out. subst out.
  destruct (get_pmid_for_title_ends env title w) as (out & evs & Hrun & Hcases).
  fold response in Hcases. unfold empty_answer in Hcases. fold response in Hcases.
  rewrite Hrun. cbn [fst snd fs].
  destruct Hcases as [[Hst ->] | [[[H200 Hempty] ->] | (H200 & pmid & Hin & ->)]].
  - split; [|split]; [intros; contradiction | intros; contradiction | reflexivity].
  - split; [|split]; [intros; contradiction | reflexivity | reflexivity].
  - split; [|split]; [| |reflexivity].
    + intros _ _. now exists pmid.
    + intros _ Hempty. rewrite Hempty in Hin. destruct Hin.
Qed.

Example get_pmid_for_title_outcomes_no_result :
  fst (get_pmid_for_title env_no_result "An unknown title" world0) = Raise IndexError.
Proof. reflexivity. Qed.

(** X9: a 200 answer whose count is at most one is taken at its word: the
    first entry of idlist is returned without fetching its title, so
    without checking that it belongs to the article searched for. *)
Theorem get_pmid_for_title_single_result (env : Env) (title : string) (w : world)
    (first : string) (others : list string) :
  status_code (esearch_response env title) = 200 ->
  count (body (esearch_response env title)) <= 1 ->
  idlist (body (esearch_response env title)) = first :: others ->
  get_pmid_for_title env title w
  = (Return (PyStr first),
     mkWorld (fs w)
       (trace w ++ [Sleep NCBI_API_SLEEP;
                    HttpGet (EUTILS_URL +:+ "esearch.fcgi")
                      [("db", PyStr PUBMED); ("term", PyStr title);
                       ("field", PyStr "title"); ("retmode", PyStr "json");
                       ("email", PyStr EMAIL); ("api_key", NCBI_API_KEY env)]])).
Proof.
  intros H200 Hcount Hids. unfold get_pmid_for_title.
  rewrite H200, Hids. cbn [Z.eqb Pos.eqb].
  replace (1 <? count (body (esearch_response env title))) with false
    by (symmetry; apply Z.ltb_ge; lia).
  unfold_monad. cbn [fs trace idlist_0]. now rewrite <- app_assoc.
Qed.

(** X10: a search that does not answer 200 costs one logged error and
    gives None; no title is fetched.  The message for a 429 asks to try
    again later; the message for any other status is a fixed text that
    does not hold the status code. *)
Theorem get_pmid_for_title_refused (env : Env) (title : string) (w : world) :
  status_code (esearch_response env title) <> 200 ->
  get_pmid_for_title env title w
  = (Return PyNone,
     mkWorld (fs w)
       (trace w ++ [Sleep NCBI_API_SLEEP;
                    HttpGet (EUTILS_URL +:+ "esearch.fcgi")
                      [("db", PyStr PUBMED); ("term", PyStr title);
                       ("field", PyStr "title"); ("retmode", PyStr "json");
                       ("email", PyStr EMAIL); ("api_key", NCBI_API_KEY env)];
                    LogError
                      (if status_code (esearch_response env title) =? 429
                       then "Too many requests to NCBI API. Try again later, or use API key."
                       else "Encountered error in searching PubMed: {response.status_code}")])).
Proof.
  intros Hstatus. unfold get_pmid_for_title.
  destruct (Z.eqb_spec (status_code (esearch_response env title)) 200);
    [contradiction|].
  destruct (status_code (esearch_response env title) =? 429);
    unfold_monad; cbn [fs trace]; rewrite <- !app_assoc; reflexivity.
Qed.

Lemma get_pmid_for_title_single_result_witness :
  get_pmid_for_title env_one_result "My Study" world0
  = (Return (PyStr "38540357"),
     mkWorld ∅
       [Sleep 1;
        HttpGet "https://eutils.ncbi.nlm.nih.gov/entrez/eutils/esearch.fcgi"
          [("db", PyStr "pubmed"); ("term", PyStr "My Study");
           ("field", PyStr "title"); ("retmode", PyStr "json");
           ("email", PyStr "raymond.leclair@gmail.com"); ("api_key", PyStr "key")]]).
Proof.
  apply (get_pmid_for_title_single_result env_one_result "My Study" world0
           "38540357" []).
  - reflexivity.
  - cbn. lia.
  - reflexivity.
Defined.

Lemma get_pmid_for_title_refused_witness :
  get_pmid_for_title env_offline "My Study" world0
  = (Return PyNone,
     mkWorld ∅
       [Sleep 1;
        HttpGet "https://eutils.ncbi.nlm.nih.gov/entrez/eutils/esearch.fcgi"
          [("db", PyStr "pubmed"); ("term", PyStr "My Study");
           ("field", PyStr "title"); ("retmode", PyStr "json");
           ("email", PyStr "raymond.leclair@gmail.com"); ("api_key", PyNone)];
        LogError "Encountered error in searching PubMed: {response.status_code}"]).
Proof.
  apply (get_pmid_for_title_refused env_offline "My Study" world0).
  discriminate.
Defined.

(** The pool of PMID workers: it raises as soon as a title has an empty
    answer, and otherwise returns, for each title, None or a listed PMID. *)
Lemma pool_map_get_pmid (env : Env) (titles : list string) (w : world) :
  exists out evs,
    pool_map (get_pmid_for_title env) titles w
    = (out, mkWorld (fs w) (trace w ++ evs))
    /\ ((Exists (empty_answer env) titles /\ out = Raise IndexError)
        \/ (Forall (fun title => ~ empty_answer env title) titles
            /\ exists found,
                 out = Return found
                 /\ Forall (fun v => v = PyNone \/ listed_pmid env titles v) found)).
Proof.
  revert w. induction titles as [|title titles IH]; intros w.
  - exists (Return []), []. cbn. rewrite app_nil_r.
    split; [now destruct w|]. right. split; [constructor|].
    exists []. split; [reflexivity | constructor].
  - destruct (get_pmid_for_title_ends env title w) as (out1 & evs1 & Hrun1 & Hcases).
    assert (Hgood : forall v,
      out1 = Return v ->
      ~ empty_answer env title ->
      (v = PyNone \/ listed_pmid env (title :: titles) v) ->
      exists out evs,
        pool_map (get_pmid_for_title env) (title :: titles) w
        = (out, mkWorld (fs w) (trace w ++ evs))
        /\ ((Exists (empty_answer env) (title :: titles) /\ out = Raise IndexError)
            \/ (Forall (fun t => ~ empty_answer env t) (title :: titles)
                /\ exists found,
                     out = Return found
                     /\ Forall (fun v => v = PyNone
                                         \/ listed_pmid env (title :: titles) v) found))).
    { intros v -> Hnotempty Hv.
      destruct (IH (mkWorld (fs w) (trace w ++ evs1)))
        as (out2 & evs2 & Hrun2 & Hrest).
      cbn [pool_map]. rewrite (bind_Return _ _ w _ _ Hrun1).
      destruct Hrest as [[Hex ->] | [Hall (found & -> & Hfound)]].
      - rewrite (bind_Raise _ _ _ _ _ Hrun2). cbn [fs trace].
        rewrite <- app_assoc. do 2 eexists. split; [reflexivity|].
        left. split; [now constructor 2 | reflexivity].
      - rewrite (bind_Return _ _ _ _ _ Hrun2). cbn [fs trace].
        rewrite <- app_assoc. do 2 eexists. split; [reflexivity|].
        right. split; [now constructor|].
        exists (v :: found). split; [reflexivity|]. constructor; [exact Hv|].
        eapply List.Forall_impl; [|exact Hfound].
        intros v' [-> | (pmid & t & -> & Ht & Hst & Hin)]; [now left | right].
        exists pmid, t. repeat split; [now right | exact Hst | exact Hin]. }
    destruct Hcases as [[Hst ->] | [[Hempty ->] | (H200 & pmid & Hin & ->)]].
    + apply (Hgood PyNone eq_refl); [intros [H200 _]; contradiction | now left].
    + cbn [pool_map]. rewrite (bind_Raise _ _ w _ _ Hrun1).
      do 2 eexists. split; [reflexivity|]. left. split; [now constructor 1 | reflexivity].
    + apply (Hgood (PyStr pmid) eq_refl).
      * intros [_ Hempty]. rewrite Hempty in Hin. destruct Hin.
      * right. exists pmid, title. repeat split; [now left | exact H200 | exact Hin].
Qed.

Lemma get_pmids_cached (env : Env) (titles : list string) (w : world)
    (items : list pyval) :
  fs w !! pmids_pickle = Some (Pickle items) ->
  get_pmids env titles w = (Return items, w).
Proof.
  intros Hfile. unfold get_pmids, pickle_load. unfold_monad.
  rewrite bool_decide_eq_true_2 by (rewrite Hfile; eauto).
  cbn [negb]. now rewrite Hfile.
Qed.

(** X11: for titles that are strings, when the pickle is absent and no
    search comes back as a 200 with an empty idlist, [get_pmids] returns
    and pickles one list, without repetition, of PMID strings; each of
    them stands in the idlist of a search that answered 200 for one of the
    titles, so that a refused search contributes nothing, whatever its
    body holds. *)
Theorem get_pmids_pickles_listed_pmids (env : Env) (titles : list string) (w : world) :
  fs w !! pmids_pickle = None ->
  Forall (fun title => ~ empty_answer env title) titles ->
  exists pmids evs,
    get_pmids env titles w
    = (Return pmids,
       mkWorld (<[pmids_pickle := Pickle pmids]> (fs w)) (trace w ++ evs))
    /\ NoDup pmids
    /\ Forall (listed_pmid env titles) pmids.
Proof.
  intros Habsent Hnonempty.
  destruct (pool_map_get_pmid env titles w) as (out & evs & Hpool & Hcases).
  destruct Hcases as [[Hex _] | [_ (found & -> & Hfound)]].
  - exfalso. apply List.Exists_exists in Hex as (title & Hin & Hempty).
    rewrite List.Forall_forall in Hnonempty. exact (Hnonempty title Hin Hempty).
  - exists (list_set (List.filter is_not_None found)), evs.
    split; [|split].
    + unfold get_pmids. unfold_monad. rewrite Habsent.
      rewrite bool_decide_eq_false_2 by (intros [? ?]; discriminate). cbn [negb].
      now rewrite Hpool.
    + apply NoDup_remove_dups.
    + apply List.Forall_forall. intros v Hv.
      unfold list_set in Hv.
      rewrite <- list_elem_of_In, elem_of_remove_dups, list_elem_of_In in Hv.
      apply List.filter_In in Hv as [Hv Hnone].
      rewrite List.Forall_forall in Hfound.
      destruct (Hfound v Hv) as [-> | Hlisted]; [discriminate | exact Hlisted].
Qed.

Lemma get_pmids_pickles_listed_pmids_witness :
  exists pmids evs,
    get_pmids env_one_result ["My Study"; "Another study"] world0
    = (Return pmids,
       mkWorld (<[pmids_pickle := Pickle pmids]> (fs world0)) (trace world0 ++ evs))
    /\ NoDup pmids
    /\ Forall (listed_pmid env_one_result ["My Study"; "Another study"]) pmids.
Proof.
  apply (get_pmids_pickles_listed_pmids env_one_result
           ["My Study"; "Another study"] world0).
  - reflexivity.
  - repeat constructor; intros [_ Hempty]; discriminate.
Defined.

Example get_pmids_one_result :
  fst (get_pmids env_one_result ["My Study"; "Another study"] world0)
  = Return [PyStr "38540357"].
Proof. reflexivity. Qed.

(** X12: one search that comes back empty is enough to lose the whole
    stage: [get_pmids] raises IndexError and writes no pickle, whatever
    the other titles have found. *)
Theorem get_pmids_all_or_nothing (env : Env) (titles : list string) (w : world) :
  fs w !! pmids_pickle = None ->
  Exists (empty_answer env) titles ->
  fst (get_pmids env titles w) = Raise IndexError
  /\ fs (snd (get_pmids env titles w)) = fs w.
Proof.
  intros Habsent Hex.
  destruct (pool_map_get_pmid env titles w) as (out & evs & Hpool & Hcases).
  destruct Hcases as [[_ ->] | [Hall _]].
  - unfold get_pmids. unfold_monad. rewrite Habsent.
    rewrite bool_decide_eq_false_2 by (intros [? ?]; discriminate). cbn [negb].
    rewrite Hpool. now split.
  - exfalso. apply List.Exists_exists in Hex as (title & Hin & Hempty).
    rewrite List.Forall_forall in Hall. exact (Hall title Hin Hempty).
Qed.

Lemma get_pmids_all_or_nothing_witness :
  fst (get_pmids env_no_result ["My Study"; "An unknown title"] world0)
  = Raise IndexError
  /\ fs (snd (get_pmids env_no_result ["My Study"; "An unknown title"] world0))
     = fs world0.
Proof.
  apply (get_pmids_all_or_nothing env_no_result ["My Study"; "An unknown title"] world0).
  - reflexivity.
  - constructor 1. split; reflexivity.
Defined.

(** X13: a second run of [get_pmids] returns the list of the first run and
    touches nothing, whatever the titles and the outside world have
    become. *)
Theorem get_pmids_rerun (env env' : Env) (titles titles' : list string)
    (w w' : world) (pmids : list pyval) :
  get_pmids env titles w = (Return pmids, w') ->
  get_pmids env' titles' w' = (Return pmids, w').
Proof.
  intros Hfirst. apply get_pmids_cached.
  destruct (fs w !! pmids_pickle) as [f|] eqn:Hfile.
  - unfold get_pmids, pickle_load in Hfirst. unfold_monad.
    rewrite bool_decide_eq_true_2 in Hfirst by (rewrite Hfile; eauto).
    cbn [negb] in Hfirst. rewrite Hfile in Hfirst.
    destruct f; try discriminate. now injection Hfirst as <- <-.
  - now destruct (get_pmids_pickle_without_None env titles w w' pmids Hfile Hfirst).
Qed.

Lemma get_pmids_rerun_witness :
  get_pmids env_offline [] (snd (get_pmids env_one_result ["My Study"] world0))
  = (Return [PyStr "38540357"], snd (get_pmids env_one_result ["My Study"] world0)).
Proof.
  apply (get_pmids_rerun env_one_result env_offline ["My Study"] [] world0).
  reflexivity.
Defined.

(** ** Annotation runner *)

Lemma run_ontogpt_pubmed_annotate_run (env : Env) (pmid : string) (w : world) :
  run_ontogpt_pubmed_annotate env pmid w
  = match fs w !! output_path_of pmid with
    | Some _ => (Return tt, w)
    | None =>
        (Return tt,
         mkWorld match ontogpt_output env pmid with
                 | Some content => <[output_path_of pmid := Binary content]> (fs w)
                 | None => fs w
                 end
                 (trace w ++ [Subprocess (ontogpt_argv pmid)]))
    end.
Proof.
  unfold run_ontogpt_pubmed_annotate. unfold_monad.
  destruct (fs w !! output_path_of pmid) as [f|] eqn:Hfile.
  - rewrite bool_decide_eq_true_2 by eauto. reflexivity.
  - rewrite bool_decide_eq_false_2 by (intros [? ?]; discriminate).
    cbn [negb]. destruct (ontogpt_output env pmid); reflexivity.
Qed.

(** X15: what the tool has written once is never asked for again; a run
    in which the tool wrote nothing is repeated by the next call, since
    the exit status is not looked at and only the file is tested. *)
Theorem run_ontogpt_pubmed_annotate_again (env env' : Env) (pmid : string) (w : world) :
  fs w !! output_path_of pmid = None ->
  let w' := snd (run_ontogpt_pubmed_annotate env pmid w) in
  (is_Some (ontogpt_output env pmid) ->
   run_ontogpt_pubmed_annotate env' pmid w' = (Return tt, w'))
  /\ (ontogpt_output env pmid = None ->
      trace (snd (run_ontogpt_pubmed_annotate env' pmid w'))
      = (trace w ++ [Subprocess (ontogpt_argv pmid); Subprocess (ontogpt_argv pmid)])%list).
Proof.
  intros Habsent w'. subst w'.
  rewrite (run_ontogpt_pubmed_annotate_run env pmid w), Habsent. cbn [snd].
  split.
  - intros [content Hout]. rewrite Hout.
    rewrite run_ontogpt_pubmed_annotate_run. cbn [fs].
    now rewrite lookup_insert_eq.
  - intros Hout. rewrite Hout.
    rewrite run_ontogpt_pubmed_annotate_run. cbn [fs]. rewrite Habsent.
    cbn [snd trace]. now rewrite <- app_assoc.
Qed.

Lemma run_ontogpt_pubmed_annotate_again_witness :
  run_ontogpt_pubmed_annotate env_offline "38540357"
    (snd (run_ontogpt_pubmed_annotate env_one_result "38540357" world0))
  = (Return tt, snd (run_ontogpt_pubmed_annotate env_one_result "38540357" world0)).
Proof.
  destruct (run_ontogpt_pubmed_annotate_again env_one_result env_offline
              "38540357" world0) as [Hdone _].
  - reflexivity.
  - apply Hdone. cbn. eauto.
Defined.

(** ** More on the dataset downloader *)

Lemma length_append (a b : string) :
  String.length (a +:+ b) = (String.length a + String.length b)%nat.
Proof.
  induction a as [|x a IH]; [reflexivity|].
  change (S (String.length (a +:+ b)) = S (String.length a + String.length b)).
  now rewrite IH.
Qed.

Lemma append_cancel_suffix (a b c : string) : a +:+ c = b +:+ c -> a = b.
Proof.
  revert b. induction a as [|x a IH]; intros [|y b] H.
  - reflexivity.
  - apply (f_equal String.length) in H. rewrite !length_append in H.
    cbn [String.length] in H. lia.
  - apply (f_equal String.length) in H. rewrite !length_append in H.
    cbn [String.length] in H. lia.
  - change (String x (a +:+ c) = String y (b +:+ c)) in H.
    injection H as -> H. f_equal. now apply IH.
Qed.

(** Two datasets share a download file only when they share their id. *)
Lemma download_filename_of_inj (id1 id2 filetype : string) :
  download_filename_of id1 filetype = download_filename_of id2 filetype ->
  id1 = id2.
Proof.
  unfold download_filename_of, CELLXGENE_DIR. intros H.
  change (String "c" (String "e" (String "l" (String "l" (String "x"
            (String "g" (String "e" (String "n" (String "e" (String "/"
               (id1 +:+ "." +:+ filetype))))))))))
          = String "c" (String "e" (String "l" (String "l" (String "x"
              (String "g" (String "e" (String "n" (String "e" (String "/"
                 (id2 +:+ "." +:+ filetype))))))))))) in H.
  injection H as H.
  rewrite <- !append_assoc in H. apply append_cancel_suffix in H.
  now apply append_cancel_suffix in H.
Qed.

(** The loop body touches no file but the download file of its dataset. *)
Lemma get_asset_frame (env : Env) (dataset_id : string) (a : asset) (w : world)
    (path : string) :
  path <> download_filename_of dataset_id "H5AD" ->
  fs (snd (get_asset env dataset_id a w)) !! path = fs w !! path.
Proof.
  intros Hpath. unfold get_asset.
  destruct (String.eqb (filetype a) "H5AD") eqn:Htype; [|reflexivity].
  cbn [negb]. rewrite (h5ad_filename _ _ Htype).
  set (file := download_filename_of dataset_id "H5AD") in *.
  unfold raise_for_status. unfold_monad.
  destruct (bool_decide (is_Some (fs w !! file))); [reflexivity|].
  cbn [negb fs trace].
  destruct ((400 <=? status_code (asset_response env (url a)))
            && (status_code (asset_response env (url a)) <? 600));
    [reflexivity|].
  rewrite (write_chunks file _ []) by (cbn [fs]; apply lookup_insert_eq).
  cbn [snd fs]. rewrite insert_insert_eq.
  now rewrite lookup_insert_ne by congruence.
Qed.

Lemma for_each_assets_frame (env : Env) (dataset_id : string) (l : list asset)
    (w : world) (path : string) :
  path <> download_filename_of dataset_id "H5AD" ->
  fs (snd (for_each l (get_asset env dataset_id) w)) !! path = fs w !! path.
Proof.
  intros Hpath. revert w. induction l as [|a l IH]; intros w; [reflexivity|].
  cbn [for_each]. unfold mbind, M_bind.
  pose proof (get_asset_frame env dataset_id a w path Hpath) as Hone.
  destruct (get_asset env dataset_id a w) as [[[]|e] w1]; cbn [snd] in *.
  - now rewrite IH.
  - exact Hone.
Qed.

Lemma get_dataset_other_files (env : Env) (ds : Dataset) (w : world) (path : string) :
  path <> download_filename_of (dataset_id ds) "H5AD" ->
  fs (snd (get_dataset env ds w)) !! path = fs w !! path.
Proof.
  intros Hpath.
  pose proof (get_dataset_run env ds w) as Hrun. cbv zeta in Hrun.
  rewrite Hrun. clear Hrun.
  set (response := dataset_response env _).
  destruct ((400 <=? status_code response) && (status_code response <? 600));
    [reflexivity|].
  destruct (negb (status_code response =? 200)); [reflexivity|].
  destruct (negb (String.eqb (dataset_id ds) (json_dataset_id (body response))));
    [reflexivity|].
  now rewrite for_each_assets_frame.
Qed.

(** X16: whatever the answers and however the download ends, the
    downloader leaves every file other than the download file of its own
    dataset as it was; in particular the files of the datasets with
    another id. *)
Theorem get_dataset_frame (env : Env) (ds : Dataset) (w : world) :
  (forall path,
     path <> download_filename_of (dataset_id ds) "H5AD" ->
     fs (snd (get_dataset env ds w)) !! path = fs w !! path)
  /\ (forall other_id,
        other_id <> dataset_id ds ->
        fs (snd (get_dataset env ds w)) !! download_filename_of other_id "H5AD"
        = fs w !! download_filename_of other_id "H5AD").
Proof.
  split; [apply get_dataset_other_files|].
  intros other_id Hother. apply get_dataset_other_files.
  intros Heq. apply Hother. exact (download_filename_of_inj _ _ _ Heq).
Qed.

(** X17: when the request of the first H5AD asset is answered with a 4xx
    or 5xx status, the downloader raises HTTPError right after that
    request: no file is created, so the next run tries again, and the
    assets after it are not requested. *)
Theorem get_dataset_asset_error (env : Env) (ds : Dataset) (w : world)
    (before after : list asset) (a : asset) :
  let dataset_url := dataset_url_of (collection_id ds) (dataset_id ds) in
  let response := dataset_response env dataset_url in
  status_code response = 200 ->
  json_dataset_id (body response) = dataset_id ds ->
  fs w !! download_filename_of (dataset_id ds) "H5AD" = None ->
  assets (body response) = (before ++ a :: after)%list ->
  Forall (fun x => filetype x <> "H5AD") before ->
  filetype a = "H5AD" ->
  400 <= status_code (asset_response env (url a)) < 600 ->
  get_dataset env ds w
  = (Raise (HTTPError (status_code (asset_response env (url a)))),
     mkWorld (fs w) (trace w ++ [HttpGet dataset_url []; HttpGet (url a) []])).
Proof.
  intros dataset_url response H200 Hid Habsent Hassets Hbefore Htype Hstatus.
  pose proof (get_dataset_run env ds w) as Hrun. cbv zeta in Hrun.
  fold dataset_url in Hrun. fold response in Hrun.
  rewrite H200, Hid, String.eqb_refl in Hrun. cbn in Hrun.
  rewrite Hrun, Hassets. clear Hrun.
  set (w1 := mkWorld (fs w) (trace w ++ [HttpGet dataset_url []])).
  rewrite (for_each_app before (a :: after) _ w1 w1)
    by now apply for_each_assets_other, not_h5ad.
  cbn [for_each].
  apply bind_Raise. unfold get_asset, raise_for_status.
  rewrite Htype. cbn [String.eqb Ascii.eqb Bool.eqb negb].
  replace ((400 <=? status_code (asset_response env (url a)))
           && (status_code (asset_response env (url a)) <? 600))
    with true
    by (symmetry; apply andb_true_iff; split;
        [apply Z.leb_le | apply Z.ltb_lt]; lia).
  unfold_monad. unfold w1. cbn [fs trace]. rewrite Habsent.
  rewrite bool_decide_eq_false_2 by (intros [? ?]; discriminate).
  cbn [negb fs trace]. now rewrite <- app_assoc.
Qed.

(** X18: the metadata request decides by status class.  A 4xx or 5xx
    status raises HTTPError and logs nothing; the error "Could not get
    dataset" is logged only for the remaining statuses other than 200; in
    both cases no asset is requested and no file written. *)
Theorem get_dataset_status (env : Env) (ds : Dataset) (w : world) :
  let dataset_url := dataset_url_of (collection_id ds) (dataset_id ds) in
  let status := status_code (dataset_response env dataset_url) in
  status <> 200 ->
  get_dataset env ds w
  = if (400 <=? status) && (status <? 600)
    then (Raise (HTTPError status),
          mkWorld (fs w) (trace w ++ [HttpGet dataset_url []]))
    else (Return tt,
          mkWorld (fs w)
            (trace w ++ [HttpGet dataset_url [];
                         LogError ("Could not get dataset for id " +:+ dataset_id ds)])).
Proof.
  intros dataset_url status Hstatus.
  pose proof (get_dataset_run env ds w) as Hrun. cbv zeta in Hrun.
  fold dataset_url in Hrun. fold status in Hrun. rewrite Hrun.
  destruct ((400 <=? status) && (status <? 600)); [reflexivity|].
  now destruct (Z.eqb_spec status 200).
Qed.

Lemma get_dataset_asset_error_witness :
  get_dataset env_asset_error ds1 world0
  = (Raise (HTTPError 403),
     mkWorld ∅
       [HttpGet "https://api.cellxgene.cziscience.com/curation/v1/collections/c1/datasets/d1" [];
        HttpGet "https://assets/d1.h5ad" []]).
Proof.
  apply (get_dataset_asset_error env_asset_error ds1 world0
           [mkAsset "RDS" "https://assets/d1.rds"]
           [mkAsset "H5AD" "https://assets/d1-copy.h5ad"]
           (mkAsset "H5AD" "https://assets/d1.h5ad")).
  - reflexivity.
  - reflexivity.
  - reflexivity.
  - reflexivity.
  - repeat constructor. discriminate.
  - reflexivity.
  - cbn. lia.
Defined.

Lemma get_dataset_status_witness :
  get_dataset env_offline ds1 world0
  = (Raise (HTTPError 404),
     mkWorld ∅
       [HttpGet "https://api.cellxgene.cziscience.com/curation/v1/collections/c1/datasets/d1" []]).
Proof.
  apply (get_dataset_status env_offline ds1 world0).
  discriminate.
Defined.

(** X20: the download stage as a whole, however it ends, leaves every
    file alone that is not the download file of one of the rows of the
    global table. *)
Theorem get_datasets_frame (env : Env) (lung_datasets : list Dataset)
    (A : Type) (datasets_df : A) (w : world) (path : string) :
  (forall d, In d lung_datasets ->
             path <> download_filename_of (dataset_id d) "H5AD") ->
  fs (snd (get_datasets env (Some lung_datasets) datasets_df w)) !! path
  = fs w !! path.
Proof.
  intros Hpath. unfold get_datasets.
  assert (Hpool :
    fs (snd (pool_map (get_dataset env) lung_datasets w)) !! path = fs w !! path).
  { revert w. induction lung_datasets as [|d rows IH]; intros w; [reflexivity|].
    cbn [pool_map]. unfold mbind at 1. unfold M_bind at 1.
    pose proof (get_dataset_other_files env d w path (Hpath d (or_introl eq_refl)))
      as Hone.
    destruct (get_dataset env d w) as [[[]|e] w1]; cbn [snd] in *; [|exact Hone].
    rewrite <- Hone. rewrite <- (IH (fun d' Hd' => Hpath d' (or_intror Hd')) w1).
    unfold mbind, M_bind.
    destruct (pool_map (get_dataset env) rows w1) as [[results|e] w2]; reflexivity. }
  unfold mbind, M_bind.
  destruct (pool_map (get_dataset env) lung_datasets w) as [[results|e] w1];
    exact Hpool.
Qed.

Lemma get_datasets_frame_witness :
  fs (snd (get_datasets env_download (Some [ds1]) tt world_cached)) !! titles_pickle
  = fs world_cached !! titles_pickle.
Proof.
  apply (get_datasets_frame env_download [ds1] unit tt world_cached titles_pickle).
  intros d [<- | []]. discriminate.
Defined.

(** The candidate loop when every fetch is refused. *)
Lemma idlist_loop_refused (env : Env) (title : string) (ids : list string) (w : world) :
  Forall (fun pmid => status_code (efetch_response env pmid) <> 200) ids ->
  idlist_loop env title ids PyNone w
  = (Return PyNone,
     mkWorld (fs w)
       (trace w ++ flat_map (fun pmid =>
                     [Sleep NCBI_API_SLEEP;
                      HttpGet (EUTILS_URL +:+ "efetch.fcgi")
                        [("db", PyStr PUBMED); ("id", PyStr pmid);
                         ("rettype", PyStr "xml"); ("email", PyStr EMAIL);
                         ("api_key", NCBI_API_KEY env)];
                      LogError ("Encountered error in fetching from PubMed: "
                                +:+ pretty (status_code (efetch_response env pmid)))])
                   ids)).
Proof.
  intros Hall. revert w. induction Hall as [|pmid ids Hpmid _ IH]; intros w.
  - cbn. rewrite app_nil_r. now destruct w.
  - cbn [idlist_loop flat_map]. unfold get_title_for_pmid.
    destruct (Z.eqb_spec (status_code (efetch_response env pmid)) 200);
      [contradiction|].
    unfold_monad. cbn [fs trace]. rewrite bool_decide_eq_false_2 by discriminate.
    rewrite IH. cbn [fs trace]. now rewrite <- !app_assoc.
Qed.

(** X21: when the search finds several articles and every fetch of a
    candidate title is refused (a 429, say), the resolver logs one error
    per candidate, takes none of them for a match, and returns the first
    entry of idlist all the same. *)
Theorem get_pmid_for_title_fetch_refused
    (env : Env) (title : string) (w : world) (first : string) (others : list string) :
  let response := esearch_response env title in
  status_code response = 200 ->
  1 < count (body response) ->
  idlist (body response) = first :: others ->
  Forall (fun pmid => status_code (efetch_response env pmid) <> 200)
         (idlist (body response)) ->
  get_pmid_for_title env title w
  = (Return (PyStr first),
     mkWorld (fs w)
       (trace w
        ++ [Sleep NCBI_API_SLEEP;
            HttpGet (EUTILS_URL +:+ "esearch.fcgi")
              [("db", PyStr PUBMED); ("term", PyStr title);
               ("field", PyStr "title"); ("retmode", PyStr "json");
               ("email", PyStr EMAIL); ("api_key", NCBI_API_KEY env)];
            LogWarning ("PubMed returned more than one result for title: " +:+ title)]
        ++ flat_map (fun pmid =>
             [Sleep NCBI_API_SLEEP;
              HttpGet (EUTILS_URL +:+ "efetch.fcgi")
                [("db", PyStr PUBMED); ("id", PyStr pmid);
                 ("rettype", PyStr "xml"); ("email", PyStr EMAIL);
                 ("api_key", NCBI_API_KEY env)];
              LogError ("Encountered error in fetching from PubMed: "
                        +:+ pretty (status_code (efetch_response env pmid)))])
             (idlist (body response)))).
Proof.
  intros response H200 Hcount Hids Hrefused.
  unfold get_pmid_for_title. fold response.
  rewrite H200. cbn [Z.eqb Pos.eqb].
  replace (1 <? count (body response)) with true by (symmetry; apply Z.ltb_lt; lia).
  unfold sleep, logging_warning.
  rewrite (bind_Return _ _ w tt (mkWorld (fs w) (trace w ++ [Sleep NCBI_API_SLEEP])))
    by reflexivity.
  unfold mbind at 1. unfold M_bind at 1. unfold emit at 1. cbn [fs trace].
  unfold mbind at 1. unfold M_bind at 1. unfold emit at 1. cbn [fs trace].
  rewrite (bind_Return _ _ _ _ _ (idlist_loop_refused env title _ _ Hrefused)).
  cbn [py_truthy negb fs trace]. rewrite Hids at 1. cbn [idlist_0].
  unfold mret, M_ret. now rewrite <- !app_assoc.
Qed.

Lemma get_pmid_for_title_fetch_refused_witness :
  fst (get_pmid_for_title env_refused "Foo bar" world0) = Return (PyStr "111").
Proof.
  rewrite (get_pmid_for_title_fetch_refused env_refused "Foo bar" world0
             "111" ["222"]).
  - reflexivity.
  - reflexivity.
  - reflexivity.
  - reflexivity.
  - repeat constructor; discriminate.
Defined.
